(** * The PANDA [coverage] plugin (panda/plugins/coverage/coverage.cpp)

    A shallow embedding of the plugin: the [RecordID] key with its hash and
    equality, the [std::unordered_set<RecordID>] the two per-block callbacks
    keep, the callbacks themselves, and [init_plugin].  Calls into the host
    (PANDA, OSI) and into the C library are oracles of the environment; a
    dereference of a null pointer and a failed [assert] are outcomes of their
    own. *)

From Stdlib Require Import ZArith List String Ascii Bool Lia DecimalString.
From stdpp Require Import base option list strings gmap.

Local Open Scope string_scope.
Local Open Scope list_scope.
Local Open Scope Z_scope.

(** ** [struct RecordID], [operator==] and [std::hash<RecordID>] *)

(** [target_ulong] values are kept as [Z]; the only arithmetic on them is in
    the hash, whose result type [size_t] has 64 bits. *)
Record RecordID := mkRecordID { pid_or_asid : Z; pc : Z }.

Definition RecordID_eqb (lhs rhs : RecordID) : bool :=
  (pid_or_asid lhs =? pid_or_asid rhs) && (pc lhs =? pc rhs).

Definition size_t_bits : Z := 64.

Definition to_size_t (z : Z) : Z := z mod 2 ^ size_t_bits.

Definition is_size_t (z : Z) : Prop := 0 <= z < 2 ^ size_t_bits.

Section Hash.
(** [std::hash<target_ulong>] belongs to the C++ library. *)
Variable hash_ulong : Z -> Z.

Definition hash_RecordID (s : RecordID) : Z :=
  let h1 := hash_ulong (pid_or_asid s) in
  let h2 := hash_ulong (pc s) in
  Z.lxor h1 (to_size_t (Z.shiftl h2 1)).
End Hash.

(** libstdc++ hashes an integer to itself: [static_cast<size_t>(val)]. *)
Definition hash_identity (x : Z) : Z := to_size_t x.

(** ** [std::unordered_set<RecordID>]

    A chained hash table: a key lives in the bucket its hash selects, and a
    bucket is searched with [operator==].  Only [find] and [insert] are used
    by the plugin.  The number of buckets is a field of the table; nothing
    below depends on its value. *)
Record unordered_set := mkSet {
  bucket_count : Z;
  buckets : gmap Z (list RecordID)
}.

Definition uset_empty (n : Z) : unordered_set :=
  {| bucket_count := n; buckets := ∅ |}.

Section UnorderedSet.
Variable hash_ulong : Z -> Z.

Definition bucket_of (s : unordered_set) (k : RecordID) : Z :=
  hash_RecordID hash_ulong k mod bucket_count s.

Definition bucket (s : unordered_set) (i : Z) : list RecordID :=
  default [] (buckets s !! i).

(** [seen.find(id) != seen.end()] *)
Definition uset_find (s : unordered_set) (k : RecordID) : bool :=
  existsb (fun e => RecordID_eqb e k) (bucket s (bucket_of s k)).

(** [seen.insert(id)]: a key already present is not stored again. *)
Definition uset_insert (s : unordered_set) (k : RecordID) : unordered_set :=
  if uset_find s k then s
  else {| bucket_count := bucket_count s;
          buckets := <[bucket_of s k := k :: bucket s (bucket_of s k)]>
                       (buckets s) |}.
End UnorderedSet.

(** ** What the plugin writes and what it talks to *)

(** One [fprintf(coveragelog, ...)] call: a literal header line, or a data
    row with the arguments the format string receives. *)
Inductive log_line :=
| HeaderLine (text : string)
| ProcessRow (process_name : string) (process_id thread_id kernel pc size : Z)
| AsidRow (asid kernel pc size : Z).

Definition nl : string := String "010"%char EmptyString.

(** [%lu] *)
Definition fmt_lu64 (z : Z) : string :=
  NilZero.string_of_uint (N.to_uint (Z.to_N z)).

Section Render.
(** [TARGET_FMT_lu] and [TARGET_FMT_lx] come from the target's headers. *)
Variables TARGET_FMT_lu TARGET_FMT_lx : Z -> string.

Definition render (l : log_line) : string :=
  match l with
  | HeaderLine text => text ++ nl
  | ProcessRow process_name process_id thread_id kernel pc size =>
      process_name ++ "," ++ TARGET_FMT_lu process_id ++ ","
      ++ TARGET_FMT_lu thread_id ++ "," ++ fmt_lu64 kernel ++ ",0x"
      ++ TARGET_FMT_lx pc ++ "," ++ fmt_lu64 size ++ nl
  | AsidRow asid kernel pc size =>
      "0x" ++ TARGET_FMT_lx asid ++ "," ++ fmt_lu64 kernel ++ ",0x"
      ++ TARGET_FMT_lx pc ++ "," ++ fmt_lu64 size ++ nl
  end%string.

Definition render_file (ls : list log_line) : string :=
  fold_right (fun l acc => (render l ++ acc)%string) EmptyString ls.
End Render.

(** The key a data row was written for. *)
Definition row_key (l : log_line) : option RecordID :=
  match l with
  | HeaderLine _ => None
  | ProcessRow _ process_id _ _ pc _ => Some (mkRecordID process_id pc)
  | AsidRow asid _ pc _ => Some (mkRecordID asid pc)
  end.

Definition row_for (k : RecordID) (l : log_line) : bool :=
  match row_key l with
  | Some k' => RecordID_eqb k' k
  | None => false
  end.

Inductive coverage_mode := MODE_PROCESS | MODE_ASID.

Definition coverage_mode_eqb (a b : coverage_mode) : bool :=
  match a, b with
  | MODE_PROCESS, MODE_PROCESS | MODE_ASID, MODE_ASID => true
  | _, _ => false
  end.

(** The function [pcb.before_block_exec] points to. *)
Inductive callback := CB_before_block_exec_process | CB_before_block_exec_asid.

Inductive buf_mode := _IOFBF | _IONBF.

(** A stream's buffering: as [fopen] left it, or as the last [setvbuf] call
    that returned 0 asked for it, with the mode and the size it passed.  The
    plugin passes no buffer of its own, so the size is a request: the bytes
    the C library allocates are the library's choice (see [stdio_buffers]). *)
Inductive buffering := BufDefault | BufRequested (m : buf_mode) (size : Z).

Record FILE := mkFILE { f_path : string; f_buffering : buffering }.

Inductive console_msg :=
| Printf (text : string) (args : list Z)
| LogError (text : string) (arg : option string)
| LogWarning (text : string).

(** The plugin's globals and function-local statics, and the part of the
    host and of the file system it acts on. *)
Record world := mkWorld {
  coveragelog : option FILE;            (* [None] is the null pointer *)
  mode : coverage_mode;
  seen_process : unordered_set;         (* static in before_block_exec_process *)
  seen_asid : unordered_set;            (* static in before_block_exec_asid *)
  fs : gmap string (list log_line);
  callbacks : list callback;            (* panda_register_callback *)
  required : list string;               (* panda_require *)
  console : list console_msg
}.

Definition set_coveragelog (f : option FILE) (w : world) : world :=
  mkWorld f (mode w) (seen_process w) (seen_asid w) (fs w) (callbacks w)
          (required w) (console w).
Definition set_mode (m : coverage_mode) (w : world) : world :=
  mkWorld (coveragelog w) m (seen_process w) (seen_asid w) (fs w) (callbacks w)
          (required w) (console w).
Definition set_seen_process (s : unordered_set) (w : world) : world :=
  mkWorld (coveragelog w) (mode w) s (seen_asid w) (fs w) (callbacks w)
          (required w) (console w).
Definition set_seen_asid (s : unordered_set) (w : world) : world :=
  mkWorld (coveragelog w) (mode w) (seen_process w) s (fs w) (callbacks w)
          (required w) (console w).
Definition set_fs (m : gmap string (list log_line)) (w : world) : world :=
  mkWorld (coveragelog w) (mode w) (seen_process w) (seen_asid w) m
          (callbacks w) (required w) (console w).
Definition set_callbacks (c : list callback) (w : world) : world :=
  mkWorld (coveragelog w) (mode w) (seen_process w) (seen_asid w) (fs w) c
          (required w) (console w).
Definition set_required (r : list string) (w : world) : world :=
  mkWorld (coveragelog w) (mode w) (seen_process w) (seen_asid w) (fs w)
          (callbacks w) r (console w).
Definition set_console (c : list console_msg) (w : world) : world :=
  mkWorld (coveragelog w) (mode w) (seen_process w) (seen_asid w) (fs w)
          (callbacks w) (required w) c.

(** ** The monad of plugin code *)

(** A call returns, or the process dies: [Fault] is undefined behaviour on a
    null pointer, [Aborted] a failed [assert]. *)
Inductive outcome (A : Type) :=
| Returned (a : A)
| Fault
| Aborted.
Arguments Returned {A} a.
Arguments Fault {A}.
Arguments Aborted {A}.

Definition M (A : Type) : Type := world -> outcome A * world.

#[global] Instance M_ret : MRet M := fun A a w => (Returned a, w).

#[global] Instance M_bind : MBind M := fun A B f m w =>
  match m w with
  | (Returned a, w') => f a w'
  | (Fault, w') => (Fault, w')
  | (Aborted, w') => (Aborted, w')
  end.

Definition get {A} (proj : world -> A) : M A := fun w => (Returned (proj w), w).
Definition modify (f : world -> world) : M unit := fun w => (Returned tt, f w).
Definition fault {A} : M A := fun w => (Fault, w).
Definition abort {A} : M A := fun w => (Aborted, w).

(** [p->field] *)
Definition deref {T A} (p : option T) (field : T -> A) : M A :=
  match p with
  | Some t => mret (field t)
  | None => fault
  end.

Definition file_content (w : world) (path : string) : list log_line :=
  default [] (fs w !! path).

(** [fprintf(coveragelog, ...)]: the line is appended to what the stream has
    been given for its file.  The stream's buffer is not modelled: [fs] holds
    what has been handed to the stream, which is on disk once the stream is
    flushed, by [fclose] at the latest. *)
Definition fprintf (l : log_line) : M unit :=
  f ← get coveragelog;
  path ← deref f f_path;
  modify (fun w => set_fs (<[path := file_content w path ++ [l]]> (fs w)) w).

Definition say (m : console_msg) : M unit :=
  modify (fun w => set_console (console w ++ [m]) w).

(** ** The per-block callbacks *)

(** What OSI reports ([osi/osi_types.h]); only the fields the plugin reads. *)
Record OsiThread := mkOsiThread { pid : Z; tid : Z }.
Record OsiProc := mkOsiProc { name : string }.

(** One executed basic block: the translation block and what the host and
    OSI answer while the callback runs.  [None] is a null result. *)
Record block_event := mkEvent {
  get_current_thread : option OsiThread;
  get_current_process : option OsiProc;
  panda_in_kernel : bool;
  panda_current_asid : Z;
  tb_pc : Z;
  tb_size : Z
}.

Section Callbacks.
Variable hash_ulong : Z -> Z.

(** [id] as [before_block_exec_process] builds it (lines 62-69). *)
Definition process_id_of (ev : block_event) : RecordID :=
  {| pid_or_asid := match get_current_thread ev with
                    | Some thread => pid thread
                    | None => 0
                    end;
     pc := tb_pc ev |}.

Definition process_name_of (ev : block_event) : string :=
  if negb (panda_in_kernel ev) then
    match get_current_process ev with
    | Some proc => name proc
    | None => "(unknown)"
    end
  else "(kernel)".

Definition before_block_exec_process (ev : block_event) : M Z :=
  let thread := get_current_thread ev in
  let id := process_id_of ev in
  tid ← deref thread tid;
  seen ← get seen_process;
  if negb (uset_find hash_ulong seen id) then
    modify (set_seen_process (uset_insert hash_ulong seen id));;
    let process_name := process_name_of ev in
    fprintf (ProcessRow process_name (pid_or_asid id) tid
                        (Z.b2z (panda_in_kernel ev)) (tb_pc ev) (tb_size ev));;
    mret 0
  else mret 0.

(** [id] as [before_block_exec_asid] builds it (lines 115-118). *)
Definition asid_id_of (ev : block_event) : RecordID :=
  {| pid_or_asid := panda_current_asid ev; pc := tb_pc ev |}.

Definition before_block_exec_asid (ev : block_event) : M Z :=
  let id := asid_id_of ev in
  seen ← get seen_asid;
  if negb (uset_find hash_ulong seen id) then
    modify (set_seen_asid (uset_insert hash_ulong seen id));;
    fprintf (AsidRow (pid_or_asid id) (Z.b2z (panda_in_kernel ev))
                     (tb_pc ev) (tb_size ev));;
    mret 0
  else mret 0.

Definition call (cb : callback) (ev : block_event) : M Z :=
  match cb with
  | CB_before_block_exec_process => before_block_exec_process ev
  | CB_before_block_exec_asid => before_block_exec_asid ev
  end.

(** The host calls the registered callback before each block, in order. *)
Fixpoint run_blocks (cb : callback) (evs : list block_event) : M unit :=
  match evs with
  | [] => mret tt
  | ev :: rest => call cb ev;; run_blocks cb rest
  end.
End Callbacks.

(** The row each callback writes for a first-seen block. *)
Definition process_row (ev : block_event) (thread : OsiThread) : log_line :=
  ProcessRow (process_name_of ev) (pid thread) (tid thread)
             (Z.b2z (panda_in_kernel ev)) (tb_pc ev) (tb_size ev).

Definition asid_row (ev : block_event) : log_line :=
  AsidRow (panda_current_asid ev) (Z.b2z (panda_in_kernel ev))
          (tb_pc ev) (tb_size ev).

(** ** [init_plugin] *)

Inductive PandaOsFamily := OS_UNKNOWN | OS_WINDOWS | OS_LINUX | OS_FREEBSD.

Definition is_OS_UNKNOWN (o : PandaOsFamily) : bool :=
  match o with OS_UNKNOWN => true | _ => false end.

(** The plugin's arguments, as given on the command line. *)
Record panda_arg_list := mkArgs {
  arg_filename : option string;
  arg_mode : option string;
  arg_buffer_size : option Z
}.

(** Modelled from the spec: [panda_parse_string], [panda_parse_string_opt]
    and [panda_parse_uint32_opt] are not under src/; an option that is not
    given takes the default passed to the parser. *)
Definition panda_parse_string (v : option string) (dflt : string) : string :=
  default dflt v.
Definition panda_parse_string_opt (v : option string) (dflt : string) : string :=
  default dflt v.
Definition panda_parse_uint32_opt (v : option Z) (dflt : Z) : Z :=
  default dflt v.

(** What surrounds one start of the plugin. *)
Record startup_env := mkEnv {
  args : panda_arg_list;
  panda_os_familyno : PandaOsFamily;
  fopen_succeeds : string -> bool;       (* can the path be opened with "w" *)
  setvbuf_ret : buf_mode -> Z -> Z;      (* setvbuf's return code *)
  init_osi_api : bool
}.

Definition header_process : list log_line :=
  [ HeaderLine "process";
    HeaderLine "process name,process id,thread id,in kernel,block address,block size" ].

Definition header_asid : list log_line :=
  [ HeaderLine "asid";
    HeaderLine "asid,in kernel,block address,block size" ].

Section Init.
(** [BUFSIZ] of <stdio.h>. *)
Variable BUFSIZ : Z.
Variable env : startup_env.

(** [coveragelog = fopen(filename, "w")]: on success the file is created or
    truncated; on failure the result is the null pointer. *)
Definition fopen_w (filename : string) : M unit :=
  if fopen_succeeds env filename then
    modify (fun w => set_coveragelog (Some (mkFILE filename BufDefault))
                       (set_fs (<[filename := []]> (fs w)) w))
  else modify (set_coveragelog None).

(** [setvbuf(coveragelog, NULL, buf_mode, buffer_size)] *)
Definition setvbuf (m : buf_mode) (size : Z) : M Z :=
  f ← get coveragelog;
  path ← deref f f_path;
  let ret_code := setvbuf_ret env m size in
  if ret_code =? 0 then
    modify (set_coveragelog (Some (mkFILE path (BufRequested m size))));;
    mret ret_code
  else mret ret_code.

Definition panda_register_callback (cb : callback) : M unit :=
  modify (fun w => set_callbacks (callbacks w ++ [cb]) w).

Definition panda_require (plugin : string) : M unit :=
  modify (fun w => set_required (required w ++ [plugin]) w).

(** [assert(e)] *)
Definition assert (e : bool) : M unit := if e then mret tt else abort.

(** Lines 197-211. *)
Definition write_header_and_register : M bool :=
  m ← get mode;
  (if coverage_mode_eqb MODE_PROCESS m then
     fprintf (HeaderLine "process");;
     fprintf (HeaderLine
       "process name,process id,thread id,in kernel,block address,block size");;
     panda_register_callback CB_before_block_exec_process
   else
     fprintf (HeaderLine "asid");;
     fprintf (HeaderLine "asid,in kernel,block address,block size");;
     panda_register_callback CB_before_block_exec_asid);;
  mret true.

(** Lines 162-196, then the header. *)
Definition init_after_mode (filename : string) (buffer_size : Z) : M bool :=
  say (Printf "%susing buffer_size of %d" [buffer_size]);;
  m ← get mode;
  (if coverage_mode_eqb MODE_PROCESS m then
     if is_OS_UNKNOWN (panda_os_familyno env) then
       say (LogWarning "no OS specified, switching to asid mode");;
       modify (set_mode MODE_ASID)
     else
       say (Printf "%susing mode process" []);;
       panda_require "osi";;
       assert (init_osi_api env)
   else say (Printf "%susing mode asid" []));;
  fopen_w filename;;
  if negb (BUFSIZ =? buffer_size) then
    let buf_mode := if 0 =? buffer_size then _IONBF else _IOFBF in
    ret_code ← setvbuf buf_mode buffer_size;
    if negb (0 =? ret_code) then
      say (LogError "could not change buffer size" None);;
      mret false
    else write_header_and_register
  else write_header_and_register.

(** Lines 141-152. *)
Definition filename : string :=
  panda_parse_string (arg_filename (args env)) "coverage.csv".

Definition mode_arg : string :=
  if is_OS_UNKNOWN (panda_os_familyno env)
  then panda_parse_string_opt (arg_mode (args env)) "asid"
  else panda_parse_string_opt (arg_mode (args env)) "process".

Definition buffer_size : Z :=
  panda_parse_uint32_opt (arg_buffer_size (args env)) BUFSIZ.

Definition init_plugin : M bool :=
  if String.eqb mode_arg "asid" then
    modify (set_mode MODE_ASID);; init_after_mode filename buffer_size
  else if String.eqb mode_arg "process" then
    modify (set_mode MODE_PROCESS);; init_after_mode filename buffer_size
  else
    say (LogError "invalid mode (%s) provided" (Some mode_arg));;
    mret false.
End Init.

(** The world before the plugin is loaded: [coveragelog] is null, [mode] is
    [MODE_ASID] (line 54), both seen-sets are empty. *)
Definition initial_world (n : Z) (disk : gmap string (list log_line)) : world :=
  {| coveragelog := None; mode := MODE_ASID;
     seen_process := uset_empty n; seen_asid := uset_empty n;
     fs := disk; callbacks := []; required := []; console := [] |}.





(** The mode [setvbuf] is called with (lines 185-189). *)
Definition buf_mode_for (buffer_size : Z) : buf_mode :=
  if 0 =? buffer_size then _IONBF else _IOFBF.

(** ** The spec's words *)

(** The events whose key is met for the first time, in order: every event
    whose key is not in [old] and did not occur earlier in the sequence. *)
Fixpoint first_seen {E} (key : E -> RecordID) (old : list RecordID)
         (evs : list E) : list E :=
  match evs with
  | [] => []
  | ev :: rest =>
      if existsb (RecordID_eqb (key ev)) old then first_seen key old rest
      else ev :: first_seen key (key ev :: old) rest
  end.

(** The first event of the sequence that has key [k]. *)
Definition first_occurrence {E} (key : E -> RecordID) (k : RecordID)
           (evs : list E) : option E :=
  List.find (fun ev => RecordID_eqb (key ev) k) evs.

Definition occurrences {E} (key : E -> RecordID) (k : RecordID)
           (evs : list E) : nat :=
  List.length (List.filter (fun ev => RecordID_eqb (key ev) k) evs).

(** The header of the output file: the mode's name, then its columns. *)
Definition mode_name (m : coverage_mode) : string :=
  match m with
  | MODE_PROCESS => "process"
  | MODE_ASID => "asid"
  end.

Definition column_schema (m : coverage_mode) : string :=
  match m with
  | MODE_PROCESS =>
      "process name,process id,thread id,in kernel,block address,block size"
  | MODE_ASID => "asid,in kernel,block address,block size"
  end.

Definition header_of (m : coverage_mode) : list log_line :=
  [HeaderLine (mode_name m); HeaderLine (column_schema m)].

(** The callback that serves a mode. *)
Definition callback_of (m : coverage_mode) : callback :=
  match m with
  | MODE_PROCESS => CB_before_block_exec_process
  | MODE_ASID => CB_before_block_exec_asid
  end.

Definition is_data_row (l : log_line) : Prop := is_Some (row_key l).

(** Per callback: the key it builds for an event, its seen-set, the row it
    writes for a first-seen event, and the events on which it gets as far as
    the seen-set (the process callback reads the thread it was given). *)
Definition callback_key (cb : callback) (ev : block_event) : RecordID :=
  match cb with
  | CB_before_block_exec_process => process_id_of ev
  | CB_before_block_exec_asid => asid_id_of ev
  end.

Definition callback_seen (cb : callback) (w : world) : unordered_set :=
  match cb with
  | CB_before_block_exec_process => seen_process w
  | CB_before_block_exec_asid => seen_asid w
  end.

Definition callback_row (cb : callback) (ev : block_event) : option log_line :=
  match cb with
  | CB_before_block_exec_process => process_row ev <$> get_current_thread ev
  | CB_before_block_exec_asid => Some (asid_row ev)
  end.

(** The rows of a list of events, in order. *)
Fixpoint rows_of (cb : callback) (evs : list block_event) : list log_line :=
  match evs with
  | [] => []
  | ev :: rest =>
      match callback_row cb ev with
      | Some row => row :: rows_of cb rest
      | None => rows_of cb rest
      end
  end.

Definition thread_resolved (cb : callback) (ev : block_event) : Prop :=
  match cb with
  | CB_before_block_exec_process => is_Some (get_current_thread ev)
  | CB_before_block_exec_asid => True
  end.

(** A table stands for a list of keys when [find] answers as membership in
    the list does. *)
Definition represents (h : Z -> Z) (s : unordered_set) (old : list RecordID) : Prop :=
  forall k, uset_find h s k = existsb (RecordID_eqb k) old.

(** The lines of a text, split at line feeds. *)
Fixpoint lines_from (acc : string) (s : string) : list string :=
  match s with
  | EmptyString => if String.eqb acc "" then [] else [acc]
  | String c rest =>
      if Ascii.eqb c "010"%char then acc :: lines_from "" rest
      else lines_from (acc ++ String c "")%string rest
  end.

Definition lines (s : string) : list string := lines_from "" s.

(** ** Concrete runs *)

(** A user-mode block of a process OSI knows, and a block for which OSI has
    nothing to report. *)
Definition user_block (p t : Z) (nm : string) (a pc size : Z) : block_event :=
  mkEvent (Some (mkOsiThread p t)) (Some (mkOsiProc nm)) false a pc size.

Definition bare_block (a pc size : Z) : block_event :=
  mkEvent None None false a pc size.

(** The world after a start in the given mode: the log is open on
    "coverage.csv" and holds the header. *)
Definition started (m : coverage_mode) (cb : callback) (hdr : list log_line)
  : world :=
  {| coveragelog := Some (mkFILE "coverage.csv" BufDefault); mode := m;
     seen_process := uset_empty 13; seen_asid := uset_empty 13;
     fs := {[ "coverage.csv" := hdr ]}; callbacks := [cb]; required := [];
     console := [] |}.

Definition started_process : world :=
  started MODE_PROCESS CB_before_block_exec_process header_process.

Definition started_asid : world :=
  started MODE_ASID CB_before_block_exec_asid header_asid.

(** The process-mode scenario: (10, 0x1000) twice, (10, 0x2000), (20, 0x1000). *)
Definition scenario_process : list block_event :=
  [ user_block 10 11 "app" 0 4096 4; user_block 10 11 "app" 0 4096 4;
    user_block 10 11 "app" 0 8192 8; user_block 20 21 "other" 0 4096 4 ].

(** The asid-mode scenario: (0xAA, 0x500) twice, then (0xBB, 0x500). *)
Definition scenario_asid : list block_event :=
  [ bare_block 170 1280 16; bare_block 170 1280 16; bare_block 187 1280 16 ].

(** Two keys libstdc++ hashes alike: 0 xor (1 << 1) = 2 = 2 xor (0 << 1). *)
Definition colliding_1 : RecordID := mkRecordID 0 1.
Definition colliding_2 : RecordID := mkRecordID 2 0.

Definition scenario_collision : list block_event :=
  [ bare_block 0 1 4; bare_block 2 0 4; bare_block 0 1 4; bare_block 2 0 4 ].

(** ** [uninit_plugin] and the rest of a session *)

(** [fclose(coveragelog)]: what was written is in the file already; closing
    the null stream is undefined. *)
Definition fclose : M unit :=
  f ← get coveragelog;
  _ ← deref f f_path;
  mret tt.

(** Lines 214-218. *)
Definition uninit_plugin : M unit :=
  fclose;;
  modify (set_coveragelog None).

(** Does the callback get past its reads of OSI's answers (line 70)? *)
Definition thread_resolvedb (cb : callback) (ev : block_event) : bool :=
  match cb with
  | CB_before_block_exec_process =>
      match get_current_thread ev with Some _ => true | None => false end
  | CB_before_block_exec_asid => true
  end.

(** The events of a run that are served: those before the first one the
    callback cannot get past. *)
Fixpoint served (cb : callback) (evs : list block_event) : list block_event :=
  match evs with
  | [] => []
  | ev :: rest => if thread_resolvedb cb ev then ev :: served cb rest else []
  end.

Definition set_callback_seen (cb : callback) (s : unordered_set) (w : world)
  : world :=
  match cb with
  | CB_before_block_exec_process => set_seen_process s w
  | CB_before_block_exec_asid => set_seen_asid s w
  end.

Definition other_callback (cb : callback) : callback :=
  match cb with
  | CB_before_block_exec_process => CB_before_block_exec_asid
  | CB_before_block_exec_asid => CB_before_block_exec_process
  end.

(** Two events that differ at most in what OSI answers. *)
Definition same_block (ev ev' : block_event) : Prop :=
  panda_in_kernel ev = panda_in_kernel ev' /\
  panda_current_asid ev = panda_current_asid ev' /\
  tb_pc ev = tb_pc ev' /\
  tb_size ev = tb_size ev'.

(** ** Facts about keys *)

Lemma RecordID_eqb_eq (a b : RecordID) : RecordID_eqb a b = true <-> a = b.
Proof.
  destruct a as [a1 a2], b as [b1 b2]; unfold RecordID_eqb; simpl.
  rewrite andb_true_iff, !Z.eqb_eq.
  split; [intros [-> ->]; reflexivity | intros [= -> ->]; auto].
Qed.

Lemma RecordID_eqb_refl (a : RecordID) : RecordID_eqb a a = true.
Proof. apply RecordID_eqb_eq; reflexivity. Qed.

Lemma RecordID_eqb_neq (a b : RecordID) : RecordID_eqb a b = false <-> a <> b.
Proof.
  rewrite <- RecordID_eqb_eq. destruct (RecordID_eqb a b); intuition congruence.
Qed.

Lemma RecordID_eqb_sym (a b : RecordID) : RecordID_eqb a b = RecordID_eqb b a.
Proof.
  unfold RecordID_eqb.
  rewrite (Z.eqb_sym (pid_or_asid a)), (Z.eqb_sym (pc a)); reflexivity.
Qed.

(** ** Facts about the table *)

Section UnorderedSetFacts.
Variable hash_ulong : Z -> Z.

Lemma uset_find_empty n k : uset_find hash_ulong (uset_empty n) k = false.
Proof. unfold uset_find, bucket; simpl. rewrite lookup_empty. reflexivity. Qed.

Lemma uset_find_insert s k k' :
  uset_find hash_ulong (uset_insert hash_ulong s k) k'
  = RecordID_eqb k k' || uset_find hash_ulong s k'.
Proof.
  unfold uset_insert.
  destruct (uset_find hash_ulong s k) eqn:Hk.
  - destruct (RecordID_eqb k k') eqn:E; [|reflexivity].
    apply RecordID_eqb_eq in E; subst k'. simpl. exact Hk.
  - unfold uset_find, bucket_of, bucket; simpl.
    destruct (decide (hash_RecordID hash_ulong k mod bucket_count s
                      = hash_RecordID hash_ulong k' mod bucket_count s))
      as [Heq | Hne].
    + rewrite <- Heq, lookup_insert_eq. reflexivity.
    + rewrite lookup_insert_ne by exact Hne.
      destruct (RecordID_eqb k k') eqn:E; [|reflexivity].
      apply RecordID_eqb_eq in E; subst k'. contradiction.
Qed.

Lemma uset_insert_bucket_count s k :
  bucket_count (uset_insert hash_ulong s k) = bucket_count s.
Proof. unfold uset_insert. destruct (uset_find hash_ulong s k); reflexivity. Qed.
End UnorderedSetFacts.

(** ** Running plugin code *)

Ltac run_M :=
  unfold mbind, M_bind, mret, M_ret, get, modify, fault, abort, deref; simpl.

Lemma fprintf_open l w f :
  coveragelog w = Some f ->
  fprintf l w
  = (Returned tt,
     set_fs (<[f_path f := file_content w (f_path f) ++ [l]]> (fs w)) w).
Proof. intros Hf. unfold fprintf. run_M. rewrite Hf. reflexivity. Qed.

Lemma fprintf_null l w : coveragelog w = None -> fprintf l w = (Fault, w).
Proof. intros Hf. unfold fprintf. run_M. rewrite Hf. reflexivity. Qed.

Lemma file_content_set_fs_eq w p ls :
  file_content (set_fs (<[p := ls]> (fs w)) w) p = ls.
Proof. unfold file_content; simpl. rewrite lookup_insert_eq. reflexivity. Qed.

Lemma file_content_set_fs_ne w p q ls :
  p <> q -> file_content (set_fs (<[p := ls]> (fs w)) w) q = file_content w q.
Proof.
  intros Hne. unfold file_content; simpl.
  rewrite lookup_insert_ne by exact Hne. reflexivity.
Qed.

(** One call of a callback that gets as far as the seen-set: it returns 0;
    a key already seen leaves the world as it is, a new key is inserted and
    its row appended to the log. *)
Lemma call_step h cb ev w f :
  coveragelog w = Some f ->
  thread_resolved cb ev ->
  exists w',
    call h cb ev w = (Returned 0, w') /\
    coveragelog w' = Some f /\
    if uset_find h (callback_seen cb w) (callback_key cb ev) then w' = w
    else callback_seen cb w'
         = uset_insert h (callback_seen cb w) (callback_key cb ev) /\
         exists row, callback_row cb ev = Some row /\
           file_content w' (f_path f) = file_content w (f_path f) ++ [row].
Proof.
  intros Hf Hres. destruct cb; simpl in *.
  - destruct Hres as [thread Hth].
    unfold before_block_exec_process. rewrite Hth. run_M.
    destruct (uset_find h (seen_process w) (process_id_of ev)) eqn:Hfind; simpl.
    + exists w. auto.
    + rewrite fprintf_open with (f := f) by exact Hf.
      eexists. split; [reflexivity|]. split; [exact Hf|].
      split; [reflexivity|].
      exists (process_row ev thread). split; [reflexivity|].
      rewrite file_content_set_fs_eq.
      unfold process_row, process_id_of. rewrite Hth. reflexivity.
  - unfold before_block_exec_asid. run_M.
    destruct (uset_find h (seen_asid w) (asid_id_of ev)) eqn:Hfind; simpl.
    + exists w. auto.
    + rewrite fprintf_open with (f := f) by exact Hf.
      eexists. split; [reflexivity|]. split; [exact Hf|].
      split; [reflexivity|].
      exists (asid_row ev). split; [reflexivity|].
      rewrite file_content_set_fs_eq. reflexivity.
Qed.

Lemma represents_empty h s : buckets s = ∅ -> represents h s [].
Proof.
  intros He k. unfold uset_find, bucket. rewrite He, lookup_empty. reflexivity.
Qed.

Lemma represents_insert h s old k :
  represents h s old -> represents h (uset_insert h s k) (k :: old).
Proof.
  intros Hr k'. rewrite uset_find_insert. simpl.
  rewrite (RecordID_eqb_sym k k'), Hr. reflexivity.
Qed.

(** A run of a callback over events it can all serve: it returns, and what it
    appends to the log is the rows of the first-seen events, in order. *)
Lemma run_blocks_first_seen h cb evs : forall w f old,
  coveragelog w = Some f ->
  represents h (callback_seen cb w) old ->
  Forall (thread_resolved cb) evs ->
  exists w',
    run_blocks h cb evs w = (Returned tt, w') /\
    coveragelog w' = Some f /\
    file_content w' (f_path f)
    = file_content w (f_path f)
      ++ rows_of cb (first_seen (callback_key cb) old evs).
Proof.
  induction evs as [|ev rest IH]; intros w f old Hf Hrep Hall.
  - exists w. simpl. rewrite app_nil_r. auto.
  - inversion Hall as [|? ? Hev Hrest]; subst.
    destruct (call_step h cb ev w f Hf Hev) as (w1 & Hcall & Hf1 & Hstep).
    simpl. unfold mbind, M_bind. rewrite Hcall.
    rewrite <- (Hrep (callback_key cb ev)).
    destruct (uset_find h (callback_seen cb w) (callback_key cb ev)) eqn:Hfind.
    + subst w1. apply IH; assumption.
    + destruct Hstep as (Hseen & row & Hrow & Hcontent).
      destruct (IH w1 f (callback_key cb ev :: old) Hf1) as (w' & Hrun & Hf' & Hc').
      * rewrite Hseen. apply represents_insert, Hrep.
      * exact Hrest.
      * exists w'. split; [exact Hrun|]. split; [exact Hf'|].
        rewrite Hc', Hcontent. simpl. rewrite Hrow.
        rewrite <- app_assoc. reflexivity.
Qed.

(** ** First occurrences *)

Lemma first_seen_filter {E} (key : E -> RecordID) k evs : forall old,
  List.filter (fun ev => RecordID_eqb (key ev) k) (first_seen key old evs)
  = if existsb (RecordID_eqb k) old then []
    else match first_occurrence key k evs with
         | Some ev => [ev]
         | None => []
         end.
Proof.
  unfold first_occurrence.
  induction evs as [|ev rest IH]; intros old; simpl.
  - destruct (existsb _ old); reflexivity.
  - destruct (existsb (RecordID_eqb (key ev)) old) eqn:Hold.
    + rewrite IH.
      destruct (existsb (RecordID_eqb k) old) eqn:Hk; [reflexivity|].
      destruct (RecordID_eqb (key ev) k) eqn:Ek; [|reflexivity].
      apply RecordID_eqb_eq in Ek. congruence.
    + simpl. rewrite IH. simpl. rewrite (RecordID_eqb_sym k (key ev)).
      destruct (RecordID_eqb (key ev) k) eqn:Ek; simpl; [|reflexivity].
      apply RecordID_eqb_eq in Ek. subst k. rewrite Hold. reflexivity.
Qed.

Lemma occurrences_first_occurrence {E} (key : E -> RecordID) k evs :
  (1 <= occurrences key k evs)%nat ->
  exists ev, first_occurrence key k evs = Some ev /\ key ev = k.
Proof.
  unfold occurrences, first_occurrence.
  induction evs as [|ev rest IH]; simpl; [lia|].
  destruct (RecordID_eqb (key ev) k) eqn:Ek.
  - intros _. exists ev. split; [reflexivity|]. apply RecordID_eqb_eq, Ek.
  - exact IH.
Qed.

Lemma callback_row_key cb ev row k :
  callback_row cb ev = Some row ->
  row_for k row = RecordID_eqb (callback_key cb ev) k.
Proof.
  destruct cb; simpl.
  - unfold process_id_of. destruct (get_current_thread ev) as [thread|]; simpl;
      [|discriminate].
    intros [= <-]. reflexivity.
  - intros [= <-]. reflexivity.
Qed.

Lemma filter_rows cb k evs :
  List.filter (row_for k) (rows_of cb evs)
  = rows_of cb
         (List.filter (fun ev => RecordID_eqb (callback_key cb ev) k) evs).
Proof.
  induction evs as [|ev rest IH]; simpl; [reflexivity|].
  destruct (callback_row cb ev) as [row|] eqn:Hrow.
  - simpl. rewrite (callback_row_key cb ev row k Hrow).
    destruct (RecordID_eqb (callback_key cb ev) k); simpl;
      rewrite ?Hrow, IH; reflexivity.
  - destruct (RecordID_eqb (callback_key cb ev) k); simpl;
      rewrite ?Hrow, IH; reflexivity.
Qed.

Lemma first_occurrence_In {E} (key : E -> RecordID) k evs ev :
  first_occurrence key k evs = Some ev -> In ev evs.
Proof. intros H. apply (List.find_some _ _ H). Qed.

(** The rows a run appends, key by key. *)
Lemma run_blocks_rows h cb evs w f :
  coveragelog w = Some f ->
  buckets (callback_seen cb w) = ∅ ->
  Forall (thread_resolved cb) evs ->
  exists w',
    run_blocks h cb evs w = (Returned tt, w') /\
    coveragelog w' = Some f /\
    file_content w' (f_path f)
    = file_content w (f_path f)
      ++ rows_of cb (first_seen (callback_key cb) [] evs) /\
    forall k,
      List.filter (row_for k)
        (rows_of cb (first_seen (callback_key cb) [] evs))
      = match first_occurrence (callback_key cb) k evs with
        | Some ev => match callback_row cb ev with
                     | Some row => [row]
                     | None => []
                     end
        | None => []
        end.
Proof.
  intros Hf Hempty Hall.
  destruct (run_blocks_first_seen h cb evs w f [] Hf
              (represents_empty h _ Hempty) Hall) as (w' & Hrun & Hf' & Hc).
  exists w'. repeat split; try assumption.
  intros k. rewrite filter_rows, first_seen_filter. simpl.
  destruct (first_occurrence (callback_key cb) k evs) as [ev|]; simpl;
    [|reflexivity].
  destruct (callback_row cb ev); reflexivity.
Qed.

Lemma thread_resolved_row cb ev :
  thread_resolved cb ev -> exists row, callback_row cb ev = Some row.
Proof.
  destruct cb; simpl.
  - intros [thread ->]. eexists; reflexivity.
  - intros _. eexists; reflexivity.
Qed.

(** ** Deduplication *)

(** Deduplication on events the callback can serve: a run of either callback
    from an empty seen-set, over events whose thread OSI resolves (every
    event, for the asid callback), appends to the log the rows of the
    first-seen events in order of discovery; for every key that occurs
    N >= 1 times the log gains exactly one row for that key, the row of its
    first occurrence, however the other events are interleaved. *)
Theorem dedup_one_row_per_key :
  forall (h : Z -> Z) (cb : callback) (evs : list block_event)
         (w : world) (f : FILE),
    coveragelog w = Some f ->
    buckets (callback_seen cb w) = ∅ ->
    Forall (thread_resolved cb) evs ->
    exists w' rows,
      run_blocks h cb evs w = (Returned tt, w') /\
      file_content w' (f_path f) = file_content w (f_path f) ++ rows /\
      rows = rows_of cb (first_seen (callback_key cb) [] evs) /\
      (forall k, (1 <= occurrences (callback_key cb) k evs)%nat ->
         exists ev row,
           first_occurrence (callback_key cb) k evs = Some ev /\
           callback_row cb ev = Some row /\
           List.filter (row_for k) rows = [row]) /\
      (forall k, occurrences (callback_key cb) k evs = 0%nat ->
         List.filter (row_for k) rows = []).
Proof.
  intros h cb evs w f Hf Hempty Hall.
  destruct (run_blocks_rows h cb evs w f Hf Hempty Hall)
    as (w' & Hrun & _ & Hc & Hk).
  exists w', (rows_of cb (first_seen (callback_key cb) [] evs)).
  split; [exact Hrun|]. split; [exact Hc|]. split; [reflexivity|]. split.
  - intros k Hocc.
    destruct (occurrences_first_occurrence _ k evs Hocc) as (ev & Hfirst & _).
    assert (Hin : In ev evs) by (eapply first_occurrence_In; eauto).
    rewrite Forall_forall in Hall.
    destruct (thread_resolved_row cb ev) as [row Hrow].
    { apply Hall. apply list_elem_of_In. exact Hin. }
    exists ev, row. rewrite Hk, Hfirst, Hrow. auto.
  - intros k Hocc. rewrite Hk.
    destruct (first_occurrence (callback_key cb) k evs) as [ev|] eqn:Hfirst;
      [|reflexivity].
    exfalso. unfold occurrences, first_occurrence in *.
    apply List.find_some in Hfirst as [Hin Heq].
    assert (Hin' : In ev (List.filter
              (fun ev => RecordID_eqb (callback_key cb ev) k) evs))
      by (apply List.filter_In; auto).
    destruct (List.filter _ evs); [contradiction | discriminate].
Qed.

Lemma dedup_one_row_per_key_witness :
  exists w',
    run_blocks hash_identity CB_before_block_exec_process scenario_process
               started_process = (Returned tt, w') /\
    file_content w' "coverage.csv"
    = header_process
      ++ [ ProcessRow "app" 10 11 0 4096 4; ProcessRow "app" 10 11 0 8192 8;
           ProcessRow "other" 20 21 0 4096 4 ].
Proof.
  destruct (dedup_one_row_per_key hash_identity CB_before_block_exec_process
              scenario_process started_process
              (mkFILE "coverage.csv" BufDefault))
    as (w' & rows & Hrun & Hcontent & Hrows & _).
  - reflexivity.
  - reflexivity.
  - repeat constructor; eexists; reflexivity.
  - exists w'. split; [exact Hrun|].
    cbn [f_path] in Hcontent. rewrite Hcontent, Hrows. reflexivity.
Defined.

(** C10. Deduplication is exact: [find] tells two distinct keys apart even
    when their hashes are equal, so in a run of either callback two distinct
    colliding keys that both occur each get exactly one row; the collision
    neither suppresses a first-seen row nor duplicates one. *)
Theorem hash_collision_keeps_dedup_exact :
  forall (h : Z -> Z) (cb : callback) (evs : list block_event)
         (w : world) (f : FILE) (k1 k2 : RecordID),
    k1 <> k2 ->
    hash_RecordID h k1 = hash_RecordID h k2 ->
    coveragelog w = Some f ->
    buckets (callback_seen cb w) = ∅ ->
    Forall (thread_resolved cb) evs ->
    (1 <= occurrences (callback_key cb) k1 evs)%nat ->
    (1 <= occurrences (callback_key cb) k2 evs)%nat ->
    (forall s, uset_find h (uset_insert h s k1) k2 = uset_find h s k2 /\
               uset_find h (uset_insert h s k1) k1 = true) /\
    exists w' rows,
      run_blocks h cb evs w = (Returned tt, w') /\
      file_content w' (f_path f) = file_content w (f_path f) ++ rows /\
      List.length (List.filter (row_for k1) rows) = 1%nat /\
      List.length (List.filter (row_for k2) rows) = 1%nat.
Proof.
  intros h cb evs w f k1 k2 Hne Hhash Hf Hempty Hall Hocc1 Hocc2. split.
  - intros s. rewrite !uset_find_insert, RecordID_eqb_refl.
    apply RecordID_eqb_neq in Hne. rewrite Hne. split; reflexivity.
  - destruct (run_blocks_rows h cb evs w f Hf Hempty Hall)
      as (w' & Hrun & _ & Hc & Hk).
    exists w', (rows_of cb (first_seen (callback_key cb) [] evs)).
    split; [exact Hrun|]. split; [exact Hc|].
    assert (Hone : forall k, (1 <= occurrences (callback_key cb) k evs)%nat ->
              List.length (List.filter (row_for k)
                (rows_of cb (first_seen (callback_key cb) [] evs))) = 1%nat).
    { intros k Hocc.
      destruct (occurrences_first_occurrence _ k evs Hocc) as (ev & Hfirst & _).
      destruct (thread_resolved_row cb ev) as [row Hrow].
      { rewrite Forall_forall in Hall. apply Hall, list_elem_of_In.
        eapply first_occurrence_In; eauto. }
      rewrite Hk, Hfirst, Hrow. reflexivity. }
    split; apply Hone; assumption.
Qed.

Lemma hash_collision_keeps_dedup_exact_witness :
  hash_RecordID hash_identity colliding_1 = hash_RecordID hash_identity colliding_2 /\
  exists w' rows,
    run_blocks hash_identity CB_before_block_exec_asid scenario_collision
               started_asid = (Returned tt, w') /\
    file_content w' "coverage.csv" = header_asid ++ rows /\
    List.length (List.filter (row_for colliding_1) rows) = 1%nat /\
    List.length (List.filter (row_for colliding_2) rows) = 1%nat.
Proof.
  split; [reflexivity|].
  apply (hash_collision_keeps_dedup_exact hash_identity
           CB_before_block_exec_asid scenario_collision started_asid
           (mkFILE "coverage.csv" BufDefault) colliding_1 colliding_2).
  - discriminate.
  - reflexivity.
  - reflexivity.
  - reflexivity.
  - repeat constructor.
  - vm_compute; lia.
  - vm_compute; lia.
Defined.

(** ** The process callback and OSI *)

(** C2. When [get_current_thread] returns the null pointer the process
    callback does not get to return: after taking 0 for the process id
    (line 69) it reads [thread->tid] (line 70) through the null pointer. *)
Theorem process_callback_null_thread_faults :
  forall (h : Z -> Z) (proc : option OsiProc) (kernel : bool)
         (asid pc size : Z) (w : world),
    process_id_of (mkEvent None proc kernel asid pc size) = mkRecordID 0 pc /\
    before_block_exec_process h (mkEvent None proc kernel asid pc size) w
    = (Fault, w).
Proof. intros. split; reflexivity. Qed.

(** C8. In process mode, for a first-seen key of a block whose thread OSI
    resolves, the callback returns 0 and appends one row; its process name
    is "(kernel)" when the CPU is in kernel code, else the name of the
    current process when OSI finds one, else "(unknown)". *)
Theorem process_name_resolution :
  forall (h : Z -> Z) (ev : block_event) (thread : OsiThread)
         (w : world) (f : FILE),
    coveragelog w = Some f ->
    get_current_thread ev = Some thread ->
    uset_find h (seen_process w) (process_id_of ev) = false ->
    exists w' recorded_name,
      before_block_exec_process h ev w = (Returned 0, w') /\
      file_content w' (f_path f)
      = file_content w (f_path f)
        ++ [ProcessRow recorded_name (pid thread) (tid thread)
                       (Z.b2z (panda_in_kernel ev)) (tb_pc ev) (tb_size ev)] /\
      (panda_in_kernel ev = true -> recorded_name = "(kernel)") /\
      (panda_in_kernel ev = false ->
       forall proc, get_current_process ev = Some proc ->
                    recorded_name = name proc) /\
      (panda_in_kernel ev = false -> get_current_process ev = None ->
       recorded_name = "(unknown)").
Proof.
  intros h ev thread w f Hf Hth Hnew.
  destruct (call_step h CB_before_block_exec_process ev w f Hf)
    as (w' & Hcall & _ & Hstep).
  { simpl. rewrite Hth. eexists; reflexivity. }
  simpl in Hcall, Hstep. rewrite Hnew in Hstep.
  destruct Hstep as (_ & row & Hrow & Hcontent).
  rewrite Hth in Hrow. simpl in Hrow. injection Hrow as <-.
  exists w', (process_name_of ev). split; [exact Hcall|]. split; [exact Hcontent|].
  unfold process_name_of.
  repeat split.
  - intros ->. reflexivity.
  - intros -> proc ->. reflexivity.
  - intros -> ->. reflexivity.
Qed.

Lemma process_name_resolution_witness :
  exists w',
    before_block_exec_process hash_identity
      (mkEvent (Some (mkOsiThread 10 11)) None false 0 4096 4) started_process
    = (Returned 0, w') /\
    file_content w' "coverage.csv"
    = header_process ++ [ProcessRow "(unknown)" 10 11 0 4096 4].
Proof.
  destruct (process_name_resolution hash_identity
              (mkEvent (Some (mkOsiThread 10 11)) None false 0 4096 4)
              (mkOsiThread 10 11) started_process
              (mkFILE "coverage.csv" BufDefault))
    as (w' & nm & Hcall & Hcontent & _ & _ & Hunknown).
  - reflexivity.
  - reflexivity.
  - reflexivity.
  - exists w'. split; [exact Hcall|].
    cbn [f_path] in Hcontent.
    rewrite Hcontent, (Hunknown eq_refl eq_refl). reflexivity.
Defined.

(** ** Start-up *)

(** Whatever a run of a callback does, it only appends data rows to the log. *)
Lemma call_appends h cb ev w f r w' :
  coveragelog w = Some f ->
  call h cb ev w = (r, w') ->
  coveragelog w' = Some f /\
  exists rows,
    file_content w' (f_path f) = file_content w (f_path f) ++ rows /\
    Forall is_data_row rows.
Proof.
  intros Hf Hcall.
  assert (Hsame : forall w0, w0 = w' -> coveragelog w0 = Some f ->
            file_content w0 (f_path f) = file_content w (f_path f) ->
            coveragelog w' = Some f /\
            exists rows, file_content w' (f_path f)
                         = file_content w (f_path f) ++ rows /\
                         Forall is_data_row rows).
  { intros w0 <- H1 H2. split; [exact H1|]. exists [].
    rewrite app_nil_r. split; [exact H2 | constructor]. }
  assert (Hcases : thread_resolved cb ev \/
            (cb = CB_before_block_exec_process /\ get_current_thread ev = None)).
  { destruct cb; simpl; [|left; exact I].
    destruct (get_current_thread ev); [left; eexists; reflexivity | right; auto]. }
  destruct Hcases as [Hres | [-> Hth]].
  - destruct (call_step h cb ev w f Hf Hres) as (w1 & Hc & Hf1 & Hstep).
    rewrite Hc in Hcall. injection Hcall as <- <-.
    destruct (uset_find h (callback_seen cb w) (callback_key cb ev)).
    + subst w1. apply (Hsame w); auto.
    + destruct Hstep as (_ & row & Hrow & Hcontent).
      split; [exact Hf1|]. exists [row]. split; [exact Hcontent|].
      constructor; [|constructor].
      destruct cb; simpl in Hrow.
      * destruct (get_current_thread ev); simpl in Hrow; [|discriminate].
        injection Hrow as <-. eexists; reflexivity.
      * injection Hrow as <-. eexists; reflexivity.
  - simpl in Hcall. unfold before_block_exec_process in Hcall.
    rewrite Hth in Hcall. simpl in Hcall.
    unfold mbind, M_bind, fault in Hcall. simpl in Hcall.
    injection Hcall as <- <-. apply (Hsame w); auto.
Qed.

Lemma run_blocks_appends h cb evs : forall w f r w',
  coveragelog w = Some f ->
  run_blocks h cb evs w = (r, w') ->
  exists rows,
    file_content w' (f_path f) = file_content w (f_path f) ++ rows /\
    Forall is_data_row rows.
Proof.
  induction evs as [|ev rest IH]; intros w f r w' Hf Hrun; simpl in Hrun.
  - injection Hrun as <- <-. exists []. rewrite app_nil_r. split; [auto|constructor].
  - unfold mbind, M_bind in Hrun.
    destruct (call h cb ev w) as [r1 w1] eqn:Hcall.
    destruct (call_appends h cb ev w f r1 w1 Hf Hcall) as (Hf1 & rows1 & Hc1 & Hd1).
    destruct r1 as [z| |].
    + destruct (IH w1 f r w' Hf1 Hrun) as (rows2 & Hc2 & Hd2).
      exists (rows1 ++ rows2). rewrite Hc2, Hc1, app_assoc.
      split; [reflexivity|]. apply Forall_app; auto.
    + injection Hrun as <- <-. exists rows1. auto.
    + injection Hrun as <- <-. exists rows1. auto.
Qed.

Ltac init_unfold :=
  unfold init_plugin, init_after_mode, write_header_and_register, fopen_w,
    setvbuf, fprintf, say, panda_register_callback, panda_require, assert;
  unfold mbind, M_bind, mret, M_ret, get, modify, fault, abort, deref.

(** C4. A mode string that is neither "asid" nor "process" makes
    [init_plugin] return false right after the check: no callback is
    registered, [fopen] is not reached, and no file is touched. *)
Theorem unknown_mode_rejected :
  forall (BUFSIZ : Z) (env : startup_env) (w : world),
    mode_arg env <> "asid" ->
    mode_arg env <> "process" ->
    exists w',
      init_plugin BUFSIZ env w = (Returned false, w') /\
      callbacks w' = callbacks w /\
      fs w' = fs w /\
      coveragelog w' = coveragelog w /\
      console w'
      = console w ++ [LogError "invalid mode (%s) provided" (Some (mode_arg env))].
Proof.
  intros BUFSIZ env w Hasid Hproc.
  apply String.eqb_neq in Hasid, Hproc.
  init_unfold. rewrite Hasid, Hproc. simpl.
  eexists. split; [reflexivity|]. simpl. auto.
Qed.

Lemma unknown_mode_rejected_witness :
  exists w',
    init_plugin 8192
      (mkEnv (mkArgs None (Some "bogus") None) OS_LINUX (fun _ => true)
             (fun _ _ => 0) true)
      (initial_world 13 ∅) = (Returned false, w') /\
    callbacks w' = [] /\ fs w' = ∅.
Proof.
  destruct (unknown_mode_rejected 8192
              (mkEnv (mkArgs None (Some "bogus") None) OS_LINUX (fun _ => true)
                     (fun _ _ => 0) true)
              (initial_world 13 ∅))
    as (w' & Hinit & Hcb & Hfs & _).
  - discriminate.
  - discriminate.
  - exists w'. auto.
Defined.

(** C5. Mode "process" requested while no OS family is configured is not
    fatal: the mode becomes asid with a warning, and once the output file
    opens and the buffering is applied [init_plugin] returns true with the
    asid callback registered and "asid" as the first line of the output. *)
Theorem process_without_os_falls_back_to_asid :
  forall (BUFSIZ : Z) (env : startup_env) (w : world),
    arg_mode (args env) = Some "process" ->
    panda_os_familyno env = OS_UNKNOWN ->
    fopen_succeeds env (filename env) = true ->
    (buffer_size BUFSIZ env = BUFSIZ \/
     setvbuf_ret env
       (if 0 =? buffer_size BUFSIZ env then _IONBF else _IOFBF)
       (buffer_size BUFSIZ env) = 0) ->
    exists w',
      init_plugin BUFSIZ env w = (Returned true, w') /\
      mode w' = MODE_ASID /\
      callbacks w' = callbacks w ++ [CB_before_block_exec_asid] /\
      console w'
      = console w
        ++ [Printf "%susing buffer_size of %d" [buffer_size BUFSIZ env];
            LogWarning "no OS specified, switching to asid mode"] /\
      file_content w' (filename env) = header_of MODE_ASID /\
      forall lu lx,
        lines (render_file lu lx (file_content w' (filename env)))
        = ["asid"; "asid,in kernel,block address,block size"].
Proof.
  intros BUFSIZ env w Hmode Hos Hopen Hbuf.
  assert (Harg : mode_arg env = "process").
  { unfold mode_arg. rewrite Hos, Hmode. reflexivity. }
  init_unfold. rewrite Harg, Hos. cbn -[Z.eqb]. rewrite Hopen. cbn -[Z.eqb].
  destruct (BUFSIZ =? buffer_size BUFSIZ env) eqn:Hsame; cbn -[Z.eqb].
  - eexists. split; [reflexivity|]. cbn -[file_content].
    rewrite <- !app_assoc. repeat split.
    + unfold file_content; simpl. rewrite !lookup_insert_eq. reflexivity.
    + intros lu lx. unfold file_content; simpl. rewrite !lookup_insert_eq.
      reflexivity.
  - destruct Hbuf as [Heq | Hret].
    { apply Z.eqb_neq in Hsame. congruence. }
    rewrite Hret. cbn -[Z.eqb].
    eexists. split; [reflexivity|]. cbn -[file_content].
    rewrite <- !app_assoc. repeat split.
    + unfold file_content; simpl. rewrite !lookup_insert_eq. reflexivity.
    + intros lu lx. unfold file_content; simpl. rewrite !lookup_insert_eq.
      reflexivity.
Qed.

Lemma process_without_os_falls_back_to_asid_witness :
  exists w',
    init_plugin 8192
      (mkEnv (mkArgs None (Some "process") (Some 0)) OS_UNKNOWN (fun _ => true)
             (fun _ _ => 0) false)
      (initial_world 13 ∅) = (Returned true, w') /\
    mode w' = MODE_ASID /\
    callbacks w' = [CB_before_block_exec_asid] /\
    file_content w' "coverage.csv" = header_asid.
Proof.
  destruct (process_without_os_falls_back_to_asid 8192
              (mkEnv (mkArgs None (Some "process") (Some 0)) OS_UNKNOWN
                     (fun _ => true) (fun _ _ => 0) false)
              (initial_world 13 ∅))
    as (w' & Hinit & Hm & Hcb & _ & Hfile & _).
  - reflexivity.
  - reflexivity.
  - reflexivity.
  - right. reflexivity.
  - exists w'. auto.
Defined.

(** A start that returns true: the file was opened, holds the header of the mode
    in force and nothing else, and that mode's callback was registered. *)
Lemma init_plugin_true BUFSIZ env w w' :
  init_plugin BUFSIZ env w = (Returned true, w') ->
  fopen_succeeds env (filename env) = true /\
  (exists buf, coveragelog w' = Some (mkFILE (filename env) buf)) /\
  file_content w' (filename env) = header_of (mode w') /\
  callbacks w' = callbacks w ++ [callback_of (mode w')].
Proof.
  init_unfold.
  destruct (String.eqb (mode_arg env) "asid");
    [|destruct (String.eqb (mode_arg env) "process")];
    cbn -[Z.eqb]; try discriminate;
    destruct (is_OS_UNKNOWN (panda_os_familyno env)); cbn -[Z.eqb];
    try (destruct (init_osi_api env); cbn -[Z.eqb]; try discriminate);
    (destruct (fopen_succeeds env (filename env)); cbn -[Z.eqb];
     destruct (BUFSIZ =? buffer_size BUFSIZ env); cbn -[Z.eqb];
     try discriminate;
     try (destruct (setvbuf_ret env _ _ =? 0) eqn:Hret; cbn -[Z.eqb];
          rewrite 1?(Z.eqb_sym 0), ?Hret; cbn -[Z.eqb]; try discriminate));
    intros [= <-]; cbn -[file_content];
    (split; [reflexivity|]; split; [eexists; reflexivity|];
     split; [|reflexivity];
     unfold file_content; simpl; rewrite !lookup_insert_eq; reflexivity).
Qed.

(** C7. After every start that returns true the output file holds exactly two
    lines, the mode's name and the mode's column schema, and the callback of
    that mode is registered; whatever the callback does afterwards, the two
    lines stay in front of the data rows. *)
Theorem header_two_lines_on_success :
  forall (BUFSIZ : Z) (env : startup_env) (w w' : world),
    init_plugin BUFSIZ env w = (Returned true, w') ->
    file_content w' (filename env)
    = [HeaderLine (mode_name (mode w')); HeaderLine (column_schema (mode w'))] /\
    (forall lu lx,
       lines (render_file lu lx (file_content w' (filename env)))
       = [mode_name (mode w'); column_schema (mode w')]) /\
    callbacks w' = callbacks w ++ [callback_of (mode w')] /\
    (forall h evs r w'',
       run_blocks h (callback_of (mode w')) evs w' = (r, w'') ->
       exists rows,
         file_content w'' (filename env)
         = [HeaderLine (mode_name (mode w'));
            HeaderLine (column_schema (mode w'))] ++ rows /\
         Forall is_data_row rows).
Proof.
  intros BUFSIZ env w w' Hinit.
  destruct (init_plugin_true BUFSIZ env w w' Hinit)
    as (_ & [buf Hlog] & Hfile & Hcb).
  split; [exact Hfile|]. split; [|split; [exact Hcb|]].
  - intros lu lx. rewrite Hfile. destruct (mode w'); reflexivity.
  - intros h evs r w'' Hrun.
    destruct (run_blocks_appends h _ evs w' _ r w'' Hlog Hrun)
      as (rows & Hc & Hrows).
    exists rows. cbn [f_path] in Hc. rewrite Hc, Hfile. auto.
Qed.

Lemma header_two_lines_on_success_witness :
  exists w',
    init_plugin 8192
      (mkEnv (mkArgs None None None) OS_LINUX (fun _ => true) (fun _ _ => 0) true)
      (initial_world 13 ∅) = (Returned true, w') /\
    mode w' = MODE_PROCESS /\
    file_content w' "coverage.csv" = header_process.
Proof.
  eexists. split; [reflexivity|]. split; [reflexivity|].
  refine (proj1 (header_two_lines_on_success 8192
            (mkEnv (mkArgs None None None) OS_LINUX (fun _ => true)
                   (fun _ _ => 0) true)
            (initial_world 13 ∅) _ eq_refl)).
Defined.

(** C3. When the output file cannot be opened, [init_plugin] does not return
    false: [coveragelog] is the null pointer, no check follows [fopen], and
    the next use of the stream ([setvbuf] or the first [fprintf]) is
    undefined.  Shown for every start with the default mode. *)
Theorem init_plugin_unopened_file_faults :
  forall (BUFSIZ : Z) (fn : option string) (bs : option Z)
         (os : PandaOsFamily) (sv : buf_mode -> Z -> Z) (w : world),
    exists w',
      init_plugin BUFSIZ
        (mkEnv (mkArgs fn None bs) os (fun _ => false) sv true) w
      = (Fault, w') /\
      coveragelog w' = None /\
      callbacks w' = callbacks w.
Proof.
  intros BUFSIZ fn bs os sv w. init_unfold.
  destruct os; cbn -[Z.eqb];
    destruct (BUFSIZ =? default BUFSIZ bs); cbn -[Z.eqb];
    eexists; (split; [reflexivity|]); split; reflexivity.
Qed.

(** ** Buffering *)




(** ** The hash of a key *)

Lemma testbit_size_t_high a n :
  is_size_t a -> size_t_bits <= n -> Z.testbit a n = false.
Proof.
  intros Ha Hn. rewrite <- (Z.mod_small a (2 ^ size_t_bits)) by exact Ha.
  apply Z.mod_pow2_bits_high. unfold size_t_bits in *. lia.
Qed.

Lemma testbit_shifted b n :
  0 <= n ->
  Z.testbit (to_size_t (Z.shiftl b 1)) n
  = if n <? size_t_bits then Z.testbit b (n - 1) else false.
Proof.
  intros Hn. unfold to_size_t.
  destruct (Z.ltb_spec n size_t_bits) as [Hlt | Hge].
  - rewrite Z.mod_pow2_bits_low by exact Hlt.
    apply Z.shiftl_spec. exact Hn.
  - apply Z.mod_pow2_bits_high. unfold size_t_bits in *. lia.
Qed.

(** [h1 ^ (h2 << 1)] tells the order of two field hashes apart unless they
    are equal. *)
Lemma combine_swap_inj a b :
  is_size_t a -> is_size_t b ->
  Z.lxor a (to_size_t (Z.shiftl b 1)) = Z.lxor b (to_size_t (Z.shiftl a 1)) ->
  a = b.
Proof.
  intros Ha Hb Heq.
  assert (Hbits : forall n, 0 <= n ->
            xorb (Z.testbit a n) (Z.testbit (to_size_t (Z.shiftl b 1)) n)
            = xorb (Z.testbit b n) (Z.testbit (to_size_t (Z.shiftl a 1)) n)).
  { intros n _. rewrite <- !Z.lxor_spec, Heq. reflexivity. }
  apply Z.bits_inj'. intros n Hn. revert n Hn.
  apply natlike_ind.
  - specialize (Hbits 0 (Z.le_refl 0)).
    rewrite !testbit_shifted in Hbits by lia. simpl in Hbits.
    rewrite !xorb_false_r in Hbits. exact Hbits.
  - intros n Hn IH.
    destruct (Z.ltb_spec (Z.succ n) size_t_bits) as [Hlt | Hge].
    + specialize (Hbits (Z.succ n) (Z.le_le_succ_r _ _ Hn)).
      rewrite !testbit_shifted in Hbits by lia.
      apply Z.ltb_lt in Hlt. rewrite Hlt in Hbits.
      replace (Z.succ n - 1) with n in Hbits by lia.
      rewrite IH in Hbits.
      destruct (Z.testbit a (Z.succ n)), (Z.testbit b (Z.succ n)),
        (Z.testbit b n); simpl in Hbits; congruence.
    + rewrite !testbit_size_t_high by assumption. reflexivity.
Qed.

(** C6. A key is order-sensitive.  For A <> B the keys (A, B) and (B, A) are
    unequal under [operator==]; their hashes [h(first) ^ (h(second) << 1)]
    are equal only when the two fields themselves hash alike, so the
    combination, a function of the key, is not commutative; with libstdc++'s
    hash, swapped keys of distinct fields never share a hash. *)
Theorem key_is_order_sensitive :
  forall (h : Z -> Z) (A B : Z),
    A <> B ->
    (forall x, is_size_t (h x)) ->
    RecordID_eqb (mkRecordID A B) (mkRecordID B A) = false /\
    (hash_RecordID h (mkRecordID A B) = hash_RecordID h (mkRecordID B A)
     <-> h A = h B) /\
    (is_size_t A -> is_size_t B ->
     hash_RecordID hash_identity (mkRecordID A B)
     <> hash_RecordID hash_identity (mkRecordID B A)).
Proof.
  intros h A B Hne Hrange. split; [|split].
  - apply RecordID_eqb_neq. intros [= HA _]. contradiction.
  - unfold hash_RecordID; simpl. split.
    + apply combine_swap_inj; apply Hrange.
    + intros ->. reflexivity.
  - intros HA HB Heq. unfold hash_RecordID, hash_identity in Heq; simpl in Heq.
    apply combine_swap_inj in Heq.
    + unfold to_size_t in Heq. rewrite !Z.mod_small in Heq; auto.
    + unfold is_size_t, to_size_t. apply Z.mod_pos_bound. reflexivity.
    + unfold is_size_t, to_size_t. apply Z.mod_pos_bound. reflexivity.
Qed.

Lemma key_is_order_sensitive_witness :
  RecordID_eqb (mkRecordID 10 4096) (mkRecordID 4096 10) = false /\
  hash_RecordID hash_identity (mkRecordID 10 4096)
  <> hash_RecordID hash_identity (mkRecordID 4096 10).
Proof.
  destruct (key_is_order_sensitive hash_identity 10 4096) as (Heqb & _ & Hhash).
  - discriminate.
  - intros x. unfold is_size_t, hash_identity, to_size_t.
    apply Z.mod_pos_bound. reflexivity.
  - split; [exact Heqb|]. apply Hhash; unfold is_size_t, size_t_bits; lia.
Defined.

(** ** The spec's scenarios *)

(** Asid mode: (0xAA, 0x500) twice and (0xBB, 0x500) once give two rows. *)
Example scenario_asid_rows :
  exists w',
    run_blocks hash_identity CB_before_block_exec_asid scenario_asid
               started_asid = (Returned tt, w') /\
    file_content w' "coverage.csv"
    = header_asid ++ [AsidRow 170 0 1280 16; AsidRow 187 0 1280 16].
Proof. eexists. split; reflexivity. Qed.

(** Process mode: the second (10, 0x1000) is suppressed, three rows remain. *)
Example scenario_process_rows :
  exists w',
    run_blocks hash_identity CB_before_block_exec_process scenario_process
               started_process = (Returned tt, w') /\
    List.length (file_content w' "coverage.csv") = 5%nat.
Proof. eexists. split; reflexivity. Qed.

(** A block without a thread stops a process-mode run at that block: later
    blocks are not served. *)
Example process_run_stops_at_null_thread :
  fst (run_blocks hash_identity CB_before_block_exec_process
         [user_block 10 11 "app" 0 4096 4; bare_block 0 8192 8;
          user_block 20 21 "other" 0 4096 4] started_process) = Fault.
Proof. reflexivity. Qed.

(** ** More on the hash *)

Lemma lxor_size_t a b : is_size_t a -> is_size_t b -> is_size_t (Z.lxor a b).
Proof.
  intros Ha Hb.
  assert (Heq : Z.lxor a b = Z.lxor a b mod 2 ^ size_t_bits).
  { apply Z.bits_inj'. intros n Hn.
    destruct (Z.ltb_spec n size_t_bits) as [Hlt | Hge].
    - rewrite Z.mod_pow2_bits_low by exact Hlt. reflexivity.
    - rewrite Z.mod_pow2_bits_high by (unfold size_t_bits in *; lia).
      rewrite Z.lxor_spec, !testbit_size_t_high by assumption. reflexivity. }
  unfold is_size_t. rewrite Heq. apply Z.mod_pos_bound. reflexivity.
Qed.

Lemma to_size_t_range z : is_size_t (to_size_t z).
Proof. unfold is_size_t, to_size_t. apply Z.mod_pos_bound. reflexivity. Qed.

Lemma lxor_cancel_r a b c : Z.lxor a c = Z.lxor b c -> a = b.
Proof.
  intros H.
  rewrite <- (Z.lxor_0_r a), <- (Z.lxor_0_r b), <- (Z.lxor_nilpotent c).
  rewrite <- !Z.lxor_assoc, H. reflexivity.
Qed.

Lemma lxor_cancel_l a b c : Z.lxor c a = Z.lxor c b -> a = b.
Proof. rewrite !(Z.lxor_comm c). apply lxor_cancel_r. Qed.

Lemma shifted_top_bit_lost b :
  to_size_t (Z.shiftl b 1) = 2 * (b mod 2 ^ 63).
Proof.
  unfold to_size_t, size_t_bits. rewrite Z.shiftl_mul_pow2 by lia.
  change (2 ^ 64) with (2 * 2 ^ 63). change (2 ^ 1) with 2.
  rewrite Z.mul_comm. apply Z.mul_mod_distr_l; lia.
Qed.

(** The hash of a key is a [size_t] whenever the field hashes are. *)
Theorem hash_RecordID_is_size_t :
  forall (h : Z -> Z) (k : RecordID),
    (forall x, is_size_t (h x)) -> is_size_t (hash_RecordID h k).
Proof.
  intros h k Hrange. unfold hash_RecordID.
  apply lxor_size_t; [apply Hrange | apply to_size_t_range].
Qed.

Lemma hash_RecordID_is_size_t_witness :
  is_size_t (hash_RecordID hash_identity (mkRecordID (2 ^ 64 - 1) (2 ^ 64 - 1))).
Proof.
  apply hash_RecordID_is_size_t. intros x. apply to_size_t_range.
Defined.

(** With the second field fixed, two keys hash alike exactly when their
    first fields hash alike. *)
Theorem hash_first_field :
  forall (h : Z -> Z) (A B C : Z),
    hash_RecordID h (mkRecordID A C) = hash_RecordID h (mkRecordID B C)
    <-> h A = h B.
Proof.
  intros h A B C. unfold hash_RecordID; simpl. split.
  - apply lxor_cancel_r.
  - intros ->. reflexivity.
Qed.

(** The shift drops the top bit of the second field's hash: with the first
    field fixed, two keys hash alike exactly when the hashes of their second
    fields agree modulo 2^63.  With libstdc++'s hash, the keys (a, pc) and
    (a, pc + 2^63) are distinct under [operator==] and share a hash. *)
Theorem hash_second_field_top_bit :
  forall (h : Z -> Z) (A B C addr : Z),
    (hash_RecordID h (mkRecordID A B) = hash_RecordID h (mkRecordID A C)
     <-> h B mod 2 ^ 63 = h C mod 2 ^ 63) /\
    (0 <= addr < 2 ^ 63 ->
     hash_RecordID hash_identity (mkRecordID A addr)
     = hash_RecordID hash_identity (mkRecordID A (addr + 2 ^ 63)) /\
     RecordID_eqb (mkRecordID A addr) (mkRecordID A (addr + 2 ^ 63)) = false).
Proof.
  intros h A B C addr. split.
  - unfold hash_RecordID; cbn [pid_or_asid pc].
    rewrite !shifted_top_bit_lost. split.
    + intros H. apply lxor_cancel_l in H. lia.
    + intros ->. reflexivity.
  - intros Hpc. split.
    + unfold hash_RecordID; cbn [pid_or_asid pc].
      rewrite !shifted_top_bit_lost.
      unfold hash_identity, to_size_t, size_t_bits.
      rewrite (Z.mod_small addr (2 ^ 64)),
        (Z.mod_small (addr + 2 ^ 63) (2 ^ 64))
        by lia.
      replace (addr + 2 ^ 63) with (addr + 1 * 2 ^ 63) by lia.
      rewrite Z.mod_add by lia. reflexivity.
    + apply RecordID_eqb_neq. intros [= H]. lia.
Qed.

Lemma hash_second_field_top_bit_witness :
  hash_RecordID hash_identity (mkRecordID 7 4096)
  = hash_RecordID hash_identity (mkRecordID 7 (4096 + 2 ^ 63)) /\
  RecordID_eqb (mkRecordID 7 4096) (mkRecordID 7 (4096 + 2 ^ 63)) = false.
Proof.
  apply (proj2 (hash_second_field_top_bit hash_identity 7 0 0 4096)). lia.
Defined.

(** ** More on the callbacks *)

(** Every way one call can go. *)
Lemma call_cases h cb ev w :
  call h cb ev w
  = if negb (thread_resolvedb cb ev) then (Fault, w)
    else if uset_find h (callback_seen cb w) (callback_key cb ev)
    then (Returned 0, w)
    else
      let w1 := set_callback_seen cb
                  (uset_insert h (callback_seen cb w) (callback_key cb ev)) w in
      match coveragelog w, callback_row cb ev with
      | Some f, Some row =>
          (Returned 0,
           set_fs (<[f_path f := file_content w (f_path f) ++ [row]]> (fs w)) w1)
      | _, _ => (Fault, w1)
      end.
Proof.
  destruct cb; simpl.
  - unfold before_block_exec_process, process_row, process_id_of.
    destruct (get_current_thread ev) as [thread|]; run_M; [|reflexivity].
    destruct (uset_find h (seen_process w) _); simpl; [reflexivity|].
    unfold fprintf. run_M. destruct (coveragelog w); reflexivity.
  - unfold before_block_exec_asid, asid_row. run_M.
    destruct (uset_find h (seen_asid w) _); simpl; [reflexivity|].
    unfold fprintf. run_M. destruct (coveragelog w); reflexivity.
Qed.

Lemma uset_find_insert_mono h s k k' :
  uset_find h s k' = true -> uset_find h (uset_insert h s k) k' = true.
Proof. intros H. rewrite uset_find_insert, H. apply orb_true_r. Qed.

Lemma uset_find_insert_same h s k : uset_find h (uset_insert h s k) k = true.
Proof. rewrite uset_find_insert, RecordID_eqb_refl. reflexivity. Qed.

(** What one call does to the seen-set of its callback. *)
Lemma call_seen h cb ev w r w' :
  call h cb ev w = (r, w') ->
  (forall k, uset_find h (callback_seen cb w) k = true ->
             uset_find h (callback_seen cb w') k = true) /\
  (forall z, r = Returned z ->
             uset_find h (callback_seen cb w') (callback_key cb ev) = true).
Proof.
  rewrite call_cases.
  destruct (thread_resolvedb cb ev); simpl.
  - destruct (uset_find h (callback_seen cb w) (callback_key cb ev)) eqn:Hfind.
    + intros [= <- <-]. auto.
    + destruct (coveragelog w) as [f|], (callback_row cb ev) as [row|];
        intros [= <- <-]; destruct cb; simpl in *;
        (split; [intros k; apply uset_find_insert_mono
                | intros z Hz; try discriminate; apply uset_find_insert_same]).
  - intros [= <- <-]. split; [auto | discriminate].
Qed.

(** What one call leaves alone. *)
Lemma call_frame h cb ev w r w' :
  call h cb ev w = (r, w') ->
  coveragelog w' = coveragelog w /\ mode w' = mode w /\
  callbacks w' = callbacks w /\ required w' = required w /\
  console w' = console w /\
  callback_seen (other_callback cb) w' = callback_seen (other_callback cb) w /\
  (forall p, (f_path <$> coveragelog w) <> Some p -> fs w' !! p = fs w !! p).
Proof.
  rewrite call_cases.
  destruct (thread_resolvedb cb ev); simpl; [|intros [= <- <-]; tauto].
  destruct (uset_find h (callback_seen cb w) (callback_key cb ev));
    [intros [= <- <-]; tauto|].
  destruct (coveragelog w) as [f|] eqn:Hlog, (callback_row cb ev) as [row|];
    intros [= <- <-]; destruct cb; simpl;
    repeat match goal with |- _ /\ _ => split end;
    try reflexivity; try assumption;
    intros p Hp; apply lookup_insert_ne; congruence.
Qed.

Lemma run_blocks_cons h cb ev rest w :
  run_blocks h cb (ev :: rest) w
  = match call h cb ev w with
    | (Returned _, w1) => run_blocks h cb rest w1
    | (Fault, w1) => (Fault, w1)
    | (Aborted, w1) => (Aborted, w1)
    end.
Proof. reflexivity. Qed.

(** One call never aborts. *)
Lemma call_returns_or_faults h cb ev w :
  (exists w1, call h cb ev w = (Returned 0, w1)) \/
  fst (call h cb ev w) = Fault.
Proof.
  rewrite call_cases.
  destruct (thread_resolvedb cb ev); simpl; [|right; reflexivity].
  destruct (uset_find h (callback_seen cb w) (callback_key cb ev));
    [left; eexists; reflexivity|].
  destruct (coveragelog w), (callback_row cb ev);
    first [left; eexists; reflexivity | right; reflexivity].
Qed.

(** C1. In process mode a sequence of blocks with a block whose thread OSI
    does not resolve contains the pair (0, pc) of that block (line 69), yet
    the run of [before_block_exec_process] over it does not get to give
    that pair, or any pair first met after it, a record: it faults at that
    block at the latest, on the read of [thread->tid] (line 70). *)
Theorem process_run_faults_at_null_thread :
  forall (h : Z -> Z) (pre post : list block_event) (proc : option OsiProc)
         (kernel : bool) (asid addr sz : Z) (w : world),
    (1 <= occurrences (callback_key CB_before_block_exec_process)
            (mkRecordID 0 addr)
            (pre ++ mkEvent None proc kernel asid addr sz :: post))%nat /\
    fst (run_blocks h CB_before_block_exec_process
           (pre ++ mkEvent None proc kernel asid addr sz :: post) w) = Fault.
Proof.
  intros h pre post proc kernel asid addr sz w. split.
  - unfold occurrences. rewrite List.filter_app, List.length_app. simpl.
    unfold process_id_of; simpl. rewrite RecordID_eqb_refl. simpl. lia.
  - revert w. induction pre as [|ev rest IH]; intros w.
    + reflexivity.
    + rewrite <- app_comm_cons, run_blocks_cons.
      destruct (call_returns_or_faults h CB_before_block_exec_process ev w)
        as [[w1 Hcall] | Hfault].
      * rewrite Hcall. apply IH.
      * destruct (call h CB_before_block_exec_process ev w) as [[z| |] w1];
          simpl in Hfault; try discriminate; reflexivity.
Qed.

Lemma run_seen_mono h cb evs : forall w w' r k,
  run_blocks h cb evs w = (r, w') ->
  uset_find h (callback_seen cb w) k = true ->
  uset_find h (callback_seen cb w') k = true.
Proof.
  induction evs as [|ev rest IH]; intros w w' r k Hrun Hk.
  - injection Hrun as <- <-. exact Hk.
  - rewrite run_blocks_cons in Hrun.
    destruct (call h cb ev w) as [r1 w1] eqn:Hcall.
    destruct (call_seen h cb ev w r1 w1 Hcall) as [Hmono _].
    destruct r1; [eapply IH; eauto | |]; injection Hrun as <- <-; auto.
Qed.

(** The seen-set of a callback only grows, whatever becomes of the run. *)
Theorem seen_set_only_grows :
  forall (h : Z -> Z) (cb : callback) (evs : list block_event)
         (w w' : world) (r : outcome unit) (k : RecordID),
    run_blocks h cb evs w = (r, w') ->
    uset_find h (callback_seen cb w) k = true ->
    uset_find h (callback_seen cb w') k = true.
Proof. intros h cb evs w w' r k. apply run_seen_mono. Qed.

Lemma seen_set_only_grows_witness :
  exists w',
    run_blocks hash_identity CB_before_block_exec_asid scenario_asid
      (set_seen_asid (uset_insert hash_identity (uset_empty 13) colliding_1)
                     started_asid) = (Returned tt, w') /\
    uset_find hash_identity (seen_asid w') colliding_1 = true.
Proof.
  eexists. split; [reflexivity|].
  refine (seen_set_only_grows hash_identity CB_before_block_exec_asid
            scenario_asid
            (set_seen_asid
               (uset_insert hash_identity (uset_empty 13) colliding_1)
               started_asid)
            _ (Returned tt) colliding_1 eq_refl _).
  reflexivity.
Defined.

Lemma run_keys_seen h cb evs : forall w w' ev,
  run_blocks h cb evs w = (Returned tt, w') ->
  In ev evs ->
  uset_find h (callback_seen cb w') (callback_key cb ev) = true.
Proof.
  induction evs as [|e rest IH]; intros w w' ev Hrun Hin; [contradiction|].
  rewrite run_blocks_cons in Hrun.
  destruct (call h cb e w) as [r1 w1] eqn:Hcall.
  destruct (call_seen h cb e w r1 w1 Hcall) as [_ Hkey].
  destruct r1 as [z| |]; try discriminate.
  destruct Hin as [<- | Hin].
  - eapply run_seen_mono; [exact Hrun|]. eapply Hkey; reflexivity.
  - eapply IH; eauto.
Qed.

(** After a run that returns, the key of every event is in the seen-set. *)
Theorem served_keys_are_seen :
  forall (h : Z -> Z) (cb : callback) (evs : list block_event)
         (w w' : world) (ev : block_event),
    run_blocks h cb evs w = (Returned tt, w') ->
    In ev evs ->
    uset_find h (callback_seen cb w') (callback_key cb ev) = true.
Proof. intros h cb evs w w' ev. apply run_keys_seen. Qed.

Lemma served_keys_are_seen_witness :
  exists w',
    run_blocks hash_identity CB_before_block_exec_process scenario_process
               started_process = (Returned tt, w') /\
    uset_find hash_identity (seen_process w') (mkRecordID 20 4096) = true.
Proof.
  eexists. split; [reflexivity|].
  refine (served_keys_are_seen hash_identity CB_before_block_exec_process
            scenario_process started_process _
            (user_block 20 21 "other" 0 4096 4) eq_refl _).
  simpl. tauto.
Defined.

Lemma run_frame h cb evs : forall w r w',
  run_blocks h cb evs w = (r, w') ->
  coveragelog w' = coveragelog w /\ mode w' = mode w /\
  callbacks w' = callbacks w /\ required w' = required w /\
  console w' = console w /\
  callback_seen (other_callback cb) w' = callback_seen (other_callback cb) w /\
  (forall p, (f_path <$> coveragelog w) <> Some p -> fs w' !! p = fs w !! p).
Proof.
  induction evs as [|ev rest IH]; intros w r w' Hrun.
  - injection Hrun as <- <-. tauto.
  - rewrite run_blocks_cons in Hrun.
    destruct (call h cb ev w) as [r1 w1] eqn:Hcall.
    destruct (call_frame h cb ev w r1 w1 Hcall)
      as (H1 & H2 & H3 & H4 & H5 & H6 & H7).
    destruct r1 as [z| |]; try (injection Hrun as <- <-; tauto).
    destruct (IH w1 r w' Hrun) as (I1 & I2 & I3 & I4 & I5 & I6 & I7).
    rewrite I1, I2, I3, I4, I5, I6, H1, H2, H3, H4, H5, H6.
    repeat match goal with |- _ /\ _ => split end; try reflexivity.
    intros p Hp. rewrite I7, H7; [reflexivity | exact Hp |].
    rewrite H1. exact Hp.
Qed.

(** A run of a callback touches its own seen-set and the log file, nothing
    else: the stream, the mode, the registered callbacks, the other
    callback's seen-set and every other file stay as they were. *)
Theorem run_touches_only_set_and_log :
  forall (h : Z -> Z) (cb : callback) (evs : list block_event)
         (w w' : world) (r : outcome unit),
    run_blocks h cb evs w = (r, w') ->
    coveragelog w' = coveragelog w /\ mode w' = mode w /\
    callbacks w' = callbacks w /\ required w' = required w /\
    console w' = console w /\
    callback_seen (other_callback cb) w' = callback_seen (other_callback cb) w /\
    (forall p, (f_path <$> coveragelog w) <> Some p -> fs w' !! p = fs w !! p).
Proof. intros h cb evs w w' r. apply run_frame. Qed.

Lemma run_touches_only_set_and_log_witness :
  exists w',
    run_blocks hash_identity CB_before_block_exec_asid scenario_asid
               started_asid = (Returned tt, w') /\
    seen_process w' = uset_empty 13 /\ callbacks w' = [CB_before_block_exec_asid].
Proof.
  eexists. split; [reflexivity|].
  destruct (run_touches_only_set_and_log hash_identity
              CB_before_block_exec_asid scenario_asid started_asid _
              (Returned tt) eq_refl)
    as (_ & _ & Hcb & _ & _ & Hseen & _).
  split; [exact Hseen | exact Hcb].
Defined.

(** A run over any events: it faults exactly when the callback cannot get
    past some event, and the rows it has handed to the stream by then are
    those of the first-seen events among the ones served. *)
Lemma run_blocks_served h cb evs : forall w f old,
  coveragelog w = Some f ->
  represents h (callback_seen cb w) old ->
  exists w',
    run_blocks h cb evs w
    = (if forallb (thread_resolvedb cb) evs then Returned tt else Fault, w') /\
    file_content w' (f_path f)
    = file_content w (f_path f)
      ++ rows_of cb (first_seen (callback_key cb) old (served cb evs)).
Proof.
  induction evs as [|ev rest IH]; intros w f old Hf Hrep.
  - exists w. simpl. rewrite app_nil_r. auto.
  - rewrite run_blocks_cons, call_cases. simpl.
    destruct (thread_resolvedb cb ev) eqn:Hres; simpl.
    2:{ exists w. rewrite app_nil_r. auto. }
    rewrite <- (Hrep (callback_key cb ev)).
    destruct (uset_find h (callback_seen cb w) (callback_key cb ev)) eqn:Hfind.
    + apply IH; assumption.
    + rewrite Hf.
      assert (Hrow : exists row, callback_row cb ev = Some row).
      { destruct cb; simpl in *; [|eexists; reflexivity].
        destruct (get_current_thread ev); [eexists; reflexivity | discriminate]. }
      destruct Hrow as [row Hrow]. rewrite Hrow.
      set (w1 := set_fs _ _).
      destruct (IH w1 f (callback_key cb ev :: old)) as (w' & Hrun & Hc).
      * destruct cb; exact Hf.
      * unfold w1. replace (callback_seen cb (set_fs _ _))
          with (uset_insert h (callback_seen cb w) (callback_key cb ev))
          by (destruct cb; reflexivity).
        apply represents_insert, Hrep.
      * exists w'. split; [exact Hrun|]. rewrite Hc. unfold w1.
        replace (file_content (set_fs _ _) (f_path f))
          with (file_content w (f_path f) ++ [row]).
        -- simpl. rewrite Hrow, <- app_assoc. reflexivity.
        -- unfold file_content; destruct cb; simpl;
             rewrite lookup_insert_eq; reflexivity.
Qed.

Lemma run_outcome h cb evs : forall w f,
  coveragelog w = Some f ->
  fst (run_blocks h cb evs w)
  = if forallb (thread_resolvedb cb) evs then Returned tt else Fault.
Proof.
  induction evs as [|ev rest IH]; intros w f Hf; [reflexivity|].
  rewrite run_blocks_cons, call_cases. simpl.
  destruct (thread_resolvedb cb ev) eqn:Hres; simpl; [|reflexivity].
  destruct (uset_find h (callback_seen cb w) (callback_key cb ev)).
  - apply (IH w f Hf).
  - rewrite Hf.
    assert (Hrow : exists row, callback_row cb ev = Some row).
    { destruct cb; simpl in *; [|eexists; reflexivity].
      destruct (get_current_thread ev); [eexists; reflexivity | discriminate]. }
    destruct Hrow as [row ->]. apply (IH _ f). destruct cb; exact Hf.
Qed.

(** With the log open, a run of a callback never aborts: it returns when the
    callback can serve every event and faults otherwise, that is, in process
    mode exactly when some event comes with a null thread, and in asid mode
    never, whatever OSI reports and whatever the seen-set holds. *)
Theorem run_faults_exactly_on_unserved_event :
  forall (h : Z -> Z) (cb : callback) (evs : list block_event)
         (w : world) (f : FILE),
    coveragelog w = Some f ->
    fst (run_blocks h cb evs w)
    = (if forallb (thread_resolvedb cb) evs then Returned tt else Fault) /\
    fst (run_blocks h CB_before_block_exec_asid evs w) = Returned tt.
Proof.
  intros h cb evs w f Hf. split; [apply (run_outcome h cb evs w f Hf)|].
  rewrite (run_outcome h _ evs w f Hf).
  replace (forallb (thread_resolvedb CB_before_block_exec_asid) evs) with true;
    [reflexivity|].
  clear. induction evs as [|ev rest IH]; simpl; auto.
Qed.

Lemma run_faults_exactly_on_unserved_event_witness :
  fst (run_blocks hash_identity CB_before_block_exec_process
         [user_block 10 11 "app" 0 4096 4; bare_block 0 8192 8;
          user_block 20 21 "other" 0 4096 4] started_process) = Fault /\
  fst (run_blocks hash_identity CB_before_block_exec_asid
         [user_block 10 11 "app" 0 4096 4; bare_block 0 8192 8;
          user_block 20 21 "other" 0 4096 4] started_process) = Returned tt.
Proof.
  apply (run_faults_exactly_on_unserved_event hash_identity
           CB_before_block_exec_process
           [user_block 10 11 "app" 0 4096 4; bare_block 0 8192 8;
            user_block 20 21 "other" 0 4096 4] started_process
           (mkFILE "coverage.csv" BufDefault)).
  reflexivity.
Defined.

(** ** Rows and keys *)

Lemma callback_row_key_eq cb ev row :
  callback_row cb ev = Some row -> row_key row = Some (callback_key cb ev).
Proof.
  destruct cb; simpl.
  - unfold process_id_of. destruct (get_current_thread ev); simpl;
      [intros [= <-]; reflexivity | discriminate].
  - intros [= <-]. reflexivity.
Qed.

Lemma run_returned_rows h cb evs : forall w w' f,
  coveragelog w = Some f ->
  run_blocks h cb evs w = (Returned tt, w') ->
  exists rows,
    file_content w' (f_path f) = file_content w (f_path f) ++ rows /\
    List.NoDup (map row_key rows) /\
    forall row, In row rows ->
      exists ev, In ev evs /\ callback_row cb ev = Some row /\
        uset_find h (callback_seen cb w) (callback_key cb ev) = false.
Proof.
  induction evs as [|ev rest IH]; intros w w' f Hf Hrun.
  - injection Hrun as <-. exists []. rewrite app_nil_r.
    split; [reflexivity|]. split; [constructor | contradiction].
  - rewrite run_blocks_cons, call_cases in Hrun.
    destruct (thread_resolvedb cb ev); simpl in Hrun; [|discriminate].
    destruct (uset_find h (callback_seen cb w) (callback_key cb ev)) eqn:Hfind.
    + destruct (IH w w' f Hf Hrun) as (rows & Hc & Hnd & Hrows).
      exists rows. split; [exact Hc|]. split; [exact Hnd|].
      intros row Hin. destruct (Hrows row Hin) as (e & He & Hr & Hn).
      exists e. auto with datatypes.
    + rewrite Hf in Hrun.
      destruct (callback_row cb ev) as [row|] eqn:Hrow; [|discriminate].
      set (w1 := set_fs _ _) in Hrun.
      assert (Hf1 : coveragelog w1 = Some f) by (destruct cb; exact Hf).
      assert (Hseen1 : callback_seen cb w1
                = uset_insert h (callback_seen cb w) (callback_key cb ev))
        by (destruct cb; reflexivity).
      assert (Hc1 : file_content w1 (f_path f)
                = file_content w (f_path f) ++ [row]).
      { unfold w1, file_content; destruct cb; simpl;
          rewrite lookup_insert_eq; reflexivity. }
      destruct (IH w1 w' f Hf1 Hrun) as (rows & Hc & Hnd & Hrows).
      exists (row :: rows). split; [|split].
      * rewrite Hc, Hc1, <- app_assoc. reflexivity.
      * simpl. constructor; [|exact Hnd].
        intros Hin. apply in_map_iff in Hin as (row' & Hkey & Hin).
        destruct (Hrows row' Hin) as (e & _ & Hr & Hn).
        apply callback_row_key_eq in Hr, Hrow.
        assert (Heq : callback_key cb e = callback_key cb ev) by congruence.
        rewrite Hseen1, Heq, uset_find_insert_same in Hn. discriminate.
      * intros r [<- | Hin].
        -- exists ev. auto with datatypes.
        -- destruct (Hrows r Hin) as (e & He & Hr & Hn).
           exists e. split; [right; exact He|]. split; [exact Hr|].
           rewrite Hseen1, uset_find_insert in Hn.
           apply orb_false_iff in Hn as [_ Hn]. exact Hn.
Qed.

(** Whatever the seen-set held before, the rows a run that returns has
    appended to the log never repeat a key, and each of them is the row of
    an event of the run whose key the seen-set did not hold before the run:
    no key gets a second row, not within a run and not across runs. *)
Theorem returned_run_never_repeats_a_key :
  forall (h : Z -> Z) (cb : callback) (evs : list block_event)
         (w w' : world) (f : FILE),
    coveragelog w = Some f ->
    run_blocks h cb evs w = (Returned tt, w') ->
    exists rows,
      file_content w' (f_path f) = file_content w (f_path f) ++ rows /\
      List.NoDup (map row_key rows) /\
      forall row, In row rows ->
        exists ev, In ev evs /\ callback_row cb ev = Some row /\
          uset_find h (callback_seen cb w) (callback_key cb ev) = false.
Proof. intros h cb evs w w' f. apply run_returned_rows. Qed.

Lemma returned_run_never_repeats_a_key_witness :
  exists rows,
    file_content
      (snd (run_blocks hash_identity CB_before_block_exec_process
              scenario_process started_process)) "coverage.csv"
    = header_process ++ rows /\
    List.NoDup (map row_key rows).
Proof.
  destruct (returned_run_never_repeats_a_key hash_identity
              CB_before_block_exec_process scenario_process started_process
              (snd (run_blocks hash_identity CB_before_block_exec_process
                      scenario_process started_process))
              (mkFILE "coverage.csv" BufDefault))
    as (rows & Hc & Hnd & _).
  - reflexivity.
  - vm_compute; reflexivity.
  - exists rows. split; [exact Hc | exact Hnd].
Defined.

(** ** Runs compose *)

Lemma run_blocks_app h cb evs1 : forall evs2 w,
  run_blocks h cb (evs1 ++ evs2) w
  = match run_blocks h cb evs1 w with
    | (Returned _, w1) => run_blocks h cb evs2 w1
    | (Fault, w1) => (Fault, w1)
    | (Aborted, w1) => (Aborted, w1)
    end.
Proof.
  induction evs1 as [|ev rest IH]; intros evs2 w; [reflexivity|].
  rewrite <- app_comm_cons, !run_blocks_cons.
  destruct (call h cb ev w) as [[z| |] w1]; [apply IH | reflexivity | reflexivity].
Qed.

Lemma call_already_seen h cb ev w :
  thread_resolved cb ev ->
  uset_find h (callback_seen cb w) (callback_key cb ev) = true ->
  call h cb ev w = (Returned 0, w).
Proof.
  intros Hres Hfind. rewrite call_cases, Hfind.
  destruct cb; simpl in *; [|reflexivity].
  destruct Hres as [thread ->]. reflexivity.
Qed.

Lemma run_all_seen h cb evs w :
  Forall (thread_resolved cb) evs ->
  (forall ev, In ev evs ->
     uset_find h (callback_seen cb w) (callback_key cb ev) = true) ->
  run_blocks h cb evs w = (Returned tt, w).
Proof.
  induction evs as [|ev rest IH]; intros Hall Hseen; [reflexivity|].
  inversion Hall as [|? ? Hev Hrest]; subst.
  rewrite run_blocks_cons, call_already_seen by (auto; apply Hseen; left; auto).
  apply IH; [exact Hrest|]. intros e He. apply Hseen. right. exact He.
Qed.

(** Replaying blocks changes nothing: after a run that returned, a second run
    over events whose keys all occurred in the first (and whose threads, in
    process mode, resolve) returns and leaves the world, the log included,
    exactly as it was. *)
Theorem replay_appends_nothing :
  forall (h : Z -> Z) (cb : callback) (evs evs' : list block_event)
         (w w1 : world),
    run_blocks h cb evs w = (Returned tt, w1) ->
    Forall (thread_resolved cb) evs' ->
    (forall ev', In ev' evs' ->
       exists ev, In ev evs /\ callback_key cb ev = callback_key cb ev') ->
    run_blocks h cb evs' w1 = (Returned tt, w1) /\
    run_blocks h cb (evs ++ evs') w = (Returned tt, w1).
Proof.
  intros h cb evs evs' w w1 Hrun Hall Hkeys.
  assert (Hagain : run_blocks h cb evs' w1 = (Returned tt, w1)).
  { apply run_all_seen; [exact Hall|].
    intros ev' Hin. destruct (Hkeys ev' Hin) as (ev & Hev & <-).
    eapply run_keys_seen; eauto. }
  split; [exact Hagain|].
  rewrite run_blocks_app, Hrun. exact Hagain.
Qed.

Lemma replay_appends_nothing_witness :
  exists w1,
    run_blocks hash_identity CB_before_block_exec_asid scenario_asid
               started_asid = (Returned tt, w1) /\
    run_blocks hash_identity CB_before_block_exec_asid
               (scenario_asid ++ scenario_asid) started_asid
    = (Returned tt, w1).
Proof.
  eexists. split; [reflexivity|].
  refine (proj2 (replay_appends_nothing hash_identity
                   CB_before_block_exec_asid scenario_asid scenario_asid
                   started_asid _ eq_refl _ _)).
  - repeat constructor.
  - intros ev' Hin. exists ev'. auto.
Defined.

Lemma asid_call_same_block h ev ev' w :
  same_block ev ev' ->
  before_block_exec_asid h ev w = before_block_exec_asid h ev' w.
Proof.
  intros (Hk & Ha & Hp & Hs).
  unfold before_block_exec_asid, asid_id_of. rewrite Hk, Ha, Hp, Hs.
  reflexivity.
Qed.

(** The asid callback never looks at OSI: two runs over events that differ
    at most in the thread and the process OSI would report end alike, in the
    same world. *)
Theorem asid_mode_ignores_osi :
  forall (h : Z -> Z) (evs evs' : list block_event) (w : world),
    Forall2 same_block evs evs' ->
    run_blocks h CB_before_block_exec_asid evs w
    = run_blocks h CB_before_block_exec_asid evs' w.
Proof.
  intros h evs evs' w Hall. revert w.
  induction Hall as [|ev ev' rest rest' Hsame _ IH]; intros w; [reflexivity|].
  rewrite !run_blocks_cons. simpl call.
  rewrite (asid_call_same_block h ev ev' w Hsame).
  destruct (before_block_exec_asid h ev' w) as [[z| |] w1];
    [apply IH | reflexivity | reflexivity].
Qed.

Lemma asid_mode_ignores_osi_witness :
  run_blocks hash_identity CB_before_block_exec_asid
    [user_block 10 11 "app" 170 1280 16] started_asid
  = run_blocks hash_identity CB_before_block_exec_asid
      [bare_block 170 1280 16] started_asid.
Proof.
  apply asid_mode_ignores_osi.
  constructor; [|constructor]. repeat split.
Defined.

(** ** More on start-up *)

Ltac init_branches BUFSIZ env :=
  init_unfold;
  destruct (String.eqb_spec (mode_arg env) "asid") as [Hasid | Hasid];
    [|destruct (String.eqb_spec (mode_arg env) "process") as [Hproc | Hproc]];
  cbn -[Z.eqb];
  destruct (is_OS_UNKNOWN (panda_os_familyno env)) eqn:Hos; cbn -[Z.eqb];
  destruct (init_osi_api env) eqn:Hosi; cbn -[Z.eqb];
  destruct (fopen_succeeds env (filename env)) eqn:Hopen; cbn -[Z.eqb];
  destruct (BUFSIZ =? buffer_size BUFSIZ env) eqn:Hbs; cbn -[Z.eqb];
  destruct (setvbuf_ret env (if 0 =? buffer_size BUFSIZ env
                             then _IONBF else _IOFBF)
                        (buffer_size BUFSIZ env) =? 0) eqn:Hret;
  cbn -[Z.eqb]; rewrite 1?(Z.eqb_sym 0), ?Hret; cbn -[Z.eqb].

(** What a start leaves alone, however it ends. *)
Lemma init_plugin_frame BUFSIZ env w r w' :
  init_plugin BUFSIZ env w = (r, w') ->
  seen_process w' = seen_process w /\ seen_asid w' = seen_asid w /\
  (forall p, p <> filename env -> fs w' !! p = fs w !! p) /\
  (r <> Returned true -> callbacks w' = callbacks w).
Proof.
  init_branches BUFSIZ env; intros [= <- <-]; cbn;
    repeat match goal with |- _ /\ _ => split end;
    try reflexivity; try congruence;
    intros p Hp; rewrite ?lookup_insert_ne by congruence; reflexivity.
Qed.

(** The mode in force after a start that returns true. *)
Lemma init_plugin_mode BUFSIZ env w w' :
  init_plugin BUFSIZ env w = (Returned true, w') ->
  match mode w' with
  | MODE_PROCESS =>
      mode_arg env = "process" /\ is_OS_UNKNOWN (panda_os_familyno env) = false /\
      init_osi_api env = true /\ required w' = required w ++ ["osi"]
  | MODE_ASID =>
      (mode_arg env = "asid" \/
       (mode_arg env = "process" /\ is_OS_UNKNOWN (panda_os_familyno env) = true))
      /\ required w' = required w
  end.
Proof.
  init_branches BUFSIZ env; intros [= <-]; cbn; auto.
Qed.

(** However a start ends, unless it returns true it registers no callback:
    not when it returns false, not when it faults, not when it aborts. *)
Theorem failed_start_registers_nothing :
  forall (BUFSIZ : Z) (env : startup_env) (w w' : world) (r : outcome bool),
    init_plugin BUFSIZ env w = (r, w') ->
    r <> Returned true ->
    callbacks w' = callbacks w.
Proof.
  intros BUFSIZ env w w' r Hinit.
  apply (init_plugin_frame BUFSIZ env w r w' Hinit).
Qed.

Lemma failed_start_registers_nothing_witness :
  exists w',
    init_plugin 8192
      (mkEnv (mkArgs None (Some "process") None) OS_LINUX (fun _ => true)
             (fun _ _ => 0) false)
      (initial_world 13 ∅) = (Aborted, w') /\
    callbacks w' = [].
Proof.
  eexists. split; [reflexivity|].
  refine (failed_start_registers_nothing 8192
            (mkEnv (mkArgs None (Some "process") None) OS_LINUX (fun _ => true)
                   (fun _ _ => 0) false)
            (initial_world 13 ∅) _ Aborted eq_refl _).
  discriminate.
Defined.

(** A start, however it ends, leaves both seen-sets and every file other
    than the output file as they were. *)
Theorem start_touches_only_output_file :
  forall (BUFSIZ : Z) (env : startup_env) (w w' : world) (r : outcome bool),
    init_plugin BUFSIZ env w = (r, w') ->
    seen_process w' = seen_process w /\ seen_asid w' = seen_asid w /\
    forall p, p <> filename env -> fs w' !! p = fs w !! p.
Proof.
  intros BUFSIZ env w w' r Hinit.
  destruct (init_plugin_frame BUFSIZ env w r w' Hinit) as (H1 & H2 & H3 & _).
  auto.
Qed.

Lemma start_touches_only_output_file_witness :
  exists w',
    init_plugin 8192
      (mkEnv (mkArgs (Some "out.csv") None None) OS_UNKNOWN (fun _ => true)
             (fun _ _ => 0) true)
      (initial_world 13 {[ "coverage.csv" := header_process ]})
    = (Returned true, w') /\
    fs w' !! "coverage.csv" = Some header_process.
Proof.
  eexists. split; [reflexivity|].
  destruct (start_touches_only_output_file 8192
              (mkEnv (mkArgs (Some "out.csv") None None) OS_UNKNOWN
                     (fun _ => true) (fun _ _ => 0) true)
              (initial_world 13 {[ "coverage.csv" := header_process ]})
              _ (Returned true) eq_refl) as (_ & _ & Hfs).
  rewrite Hfs; [reflexivity | discriminate].
Defined.

(** After a start that returns true, process mode is in force only if the
    mode string was "process", an OS family is configured and
    [init_osi_api] succeeded, and then the osi plugin has been required; in
    asid mode the osi plugin is not required. *)
Theorem mode_in_force_after_start :
  forall (BUFSIZ : Z) (env : startup_env) (w w' : world),
    init_plugin BUFSIZ env w = (Returned true, w') ->
    (mode w' = MODE_PROCESS ->
     mode_arg env = "process" /\
     panda_os_familyno env <> OS_UNKNOWN /\
     init_osi_api env = true /\
     required w' = required w ++ ["osi"]) /\
    (mode w' = MODE_ASID ->
     (mode_arg env = "asid" \/
      (mode_arg env = "process" /\ panda_os_familyno env = OS_UNKNOWN)) /\
     required w' = required w).
Proof.
  intros BUFSIZ env w w' Hinit.
  pose proof (init_plugin_mode BUFSIZ env w w' Hinit) as Hmode.
  destruct (mode w'); split; intros Hm; try discriminate.
  - destruct Hmode as (H1 & H2 & H3 & H4). repeat split; auto.
    intros Hos. rewrite Hos in H2. discriminate.
  - destruct Hmode as ([H1 | [H1 H2]] & H3); split; auto.
    right. split; [exact H1|]. destruct (panda_os_familyno env); auto; discriminate.
Qed.

Lemma mode_in_force_after_start_witness :
  exists w',
    init_plugin 8192
      (mkEnv (mkArgs None None None) OS_LINUX (fun _ => true) (fun _ _ => 0) true)
      (initial_world 13 ∅) = (Returned true, w') /\
    required w' = ["osi"].
Proof.
  eexists. split; [reflexivity|].
  refine (proj2 (proj2 (proj2 (proj1 (mode_in_force_after_start 8192
            (mkEnv (mkArgs None None None) OS_LINUX (fun _ => true)
                   (fun _ _ => 0) true)
            (initial_world 13 ∅) _ eq_refl) eq_refl)))).
Defined.

(** With no mode argument, a start that returns true is in process mode when
    an OS family is configured and in asid mode when none is. *)
Theorem default_mode :
  forall (BUFSIZ : Z) (env : startup_env) (w w' : world),
    arg_mode (args env) = None ->
    init_plugin BUFSIZ env w = (Returned true, w') ->
    mode w' = match panda_os_familyno env with
              | OS_UNKNOWN => MODE_ASID
              | _ => MODE_PROCESS
              end.
Proof.
  intros BUFSIZ env w w' Hnone Hinit.
  pose proof (init_plugin_mode BUFSIZ env w w' Hinit) as Hmode.
  unfold mode_arg in Hmode. rewrite Hnone in Hmode.
  destruct (mode w'), (panda_os_familyno env); simpl in Hmode;
    try reflexivity;
    intuition discriminate.
Qed.

Lemma default_mode_witness :
  exists w',
    init_plugin 8192
      (mkEnv (mkArgs None None None) OS_WINDOWS (fun _ => true) (fun _ _ => 0) true)
      (initial_world 13 ∅) = (Returned true, w') /\
    mode w' = MODE_PROCESS.
Proof.
  eexists. split; [reflexivity|].
  refine (default_mode 8192
            (mkEnv (mkArgs None None None) OS_WINDOWS (fun _ => true)
                   (fun _ _ => 0) true)
            (initial_world 13 ∅) _ eq_refl eq_refl).
Defined.

(** Process mode with an OS family configured and [init_osi_api] failing:
    the [assert] on line 175 ends the start after the osi plugin was
    required and before the output file is opened; no file is touched and no
    callback registered. *)
Theorem osi_failure_aborts_before_open :
  forall (BUFSIZ : Z) (env : startup_env) (w : world),
    mode_arg env = "process" ->
    panda_os_familyno env <> OS_UNKNOWN ->
    init_osi_api env = false ->
    exists w',
      init_plugin BUFSIZ env w = (Aborted, w') /\
      fs w' = fs w /\ coveragelog w' = coveragelog w /\
      callbacks w' = callbacks w /\
      required w' = required w ++ ["osi"].
Proof.
  intros BUFSIZ env w Hmode Hos Hosi.
  assert (Hknown : is_OS_UNKNOWN (panda_os_familyno env) = false)
    by (destruct (panda_os_familyno env); [contradiction | reflexivity ..]).
  init_unfold. rewrite Hmode, Hknown, Hosi. cbn -[Z.eqb].
  eexists. split; [reflexivity|]. cbn. auto.
Qed.

Lemma osi_failure_aborts_before_open_witness :
  exists w',
    init_plugin 8192
      (mkEnv (mkArgs None None None) OS_LINUX (fun _ => true) (fun _ _ => 0) false)
      (initial_world 13 ∅) = (Aborted, w') /\
    fs w' = ∅.
Proof.
  destruct (osi_failure_aborts_before_open 8192
              (mkEnv (mkArgs None None None) OS_LINUX (fun _ => true)
                     (fun _ _ => 0) false)
              (initial_world 13 ∅)) as (w' & Hinit & Hfs & _).
  - reflexivity.
  - discriminate.
  - reflexivity.
  - exists w'. split; [exact Hinit | exact Hfs].
Defined.

(** When [setvbuf] fails the start returns false, but the output file has
    been created or truncated by then and the stream is left open:
    [coveragelog] still points to it and the file is empty. *)
Theorem setvbuf_failure_leaves_truncated_file :
  forall (BUFSIZ : Z) (env : startup_env) (w : world),
    mode_arg env = "asid" \/ mode_arg env = "process" ->
    init_osi_api env = true ->
    fopen_succeeds env (filename env) = true ->
    buffer_size BUFSIZ env <> BUFSIZ ->
    setvbuf_ret env (buf_mode_for (buffer_size BUFSIZ env))
                (buffer_size BUFSIZ env) <> 0 ->
    exists w',
      init_plugin BUFSIZ env w = (Returned false, w') /\
      coveragelog w' = Some (mkFILE (filename env) BufDefault) /\
      file_content w' (filename env) = [] /\
      exists before,
        console w' = before ++ [LogError "could not change buffer size" None].
Proof.
  intros BUFSIZ env w Hmode Hosi0 Hopen0 Hbs0 Hret0.
  unfold buf_mode_for in Hret0.
  apply Z.eqb_neq in Hret0. apply not_eq_sym, Z.eqb_neq in Hbs0.
  init_branches BUFSIZ env; try congruence;
    try (destruct Hmode; congruence);
    (eexists; split; [reflexivity|]; cbn -[file_content];
     split; [reflexivity|]; split;
     [unfold file_content; cbn; rewrite lookup_insert_eq; reflexivity|];
     eexists; reflexivity).
Qed.

Lemma setvbuf_failure_leaves_truncated_file_witness :
  exists w',
    init_plugin 8192
      (mkEnv (mkArgs None (Some "asid") (Some 0)) OS_LINUX (fun _ => true)
             (fun _ _ => -1) true)
      (initial_world 13 {[ "coverage.csv" := header_process ]})
    = (Returned false, w') /\
    file_content w' "coverage.csv" = [].
Proof.
  destruct (setvbuf_failure_leaves_truncated_file 8192
              (mkEnv (mkArgs None (Some "asid") (Some 0)) OS_LINUX
                     (fun _ => true) (fun _ _ => -1) true)
              (initial_world 13 {[ "coverage.csv" := header_process ]}))
    as (w' & Hinit & _ & Hfile & _).
  - left. reflexivity.
  - reflexivity.
  - reflexivity.
  - discriminate.
  - discriminate.
  - exists w'. split; [exact Hinit | exact Hfile].
Defined.

(** ** A whole session *)

Lemma uninit_plugin_open w f :
  coveragelog w = Some f ->
  uninit_plugin w = (Returned tt, set_coveragelog None w).
Proof. intros Hf. unfold uninit_plugin, fclose. run_M. rewrite Hf. reflexivity. Qed.

Lemma served_all cb evs :
  forallb (thread_resolvedb cb) evs = true -> served cb evs = evs.
Proof.
  induction evs as [|ev rest IH]; simpl; [reflexivity|].
  destruct (thread_resolvedb cb ev); simpl; [|discriminate].
  intros H. rewrite IH by exact H. reflexivity.
Qed.

(** Start, run, stop.  When [init_plugin] returns true from a world with
    empty seen-sets, the callback it registered returns on every event, and
    [uninit_plugin] is called: [uninit_plugin] returns, [coveragelog] is
    null again, and the output file holds the header of the mode followed by
    one row per first-seen event, in order of discovery, and nothing else. *)
Theorem session_output :
  forall (BUFSIZ : Z) (env : startup_env) (h : Z -> Z)
         (evs : list block_event) (w w1 w2 : world),
    buckets (seen_process w) = ∅ ->
    buckets (seen_asid w) = ∅ ->
    init_plugin BUFSIZ env w = (Returned true, w1) ->
    run_blocks h (callback_of (mode w1)) evs w1 = (Returned tt, w2) ->
    exists w3,
      uninit_plugin w2 = (Returned tt, w3) /\
      coveragelog w3 = None /\
      callbacks w1 = callbacks w ++ [callback_of (mode w1)] /\
      file_content w3 (filename env)
      = header_of (mode w1)
        ++ rows_of (callback_of (mode w1))
             (first_seen (callback_key (callback_of (mode w1))) [] evs).
Proof.
  intros BUFSIZ env h evs w w1 w2 Hp Ha Hinit Hrun.
  destruct (init_plugin_true BUFSIZ env w w1 Hinit)
    as (_ & [buf Hlog] & Hfile & Hcb).
  destruct (init_plugin_frame BUFSIZ env w _ w1 Hinit) as (Hsp & Hsa & _).
  set (cb := callback_of (mode w1)) in *.
  assert (Hempty : buckets (callback_seen cb w1) = ∅).
  { destruct cb; simpl; congruence. }
  destruct (run_blocks_served h cb evs w1 _ [] Hlog
              (represents_empty h _ Hempty)) as (w2' & Hrun' & Hc).
  rewrite Hrun in Hrun'.
  destruct (forallb (thread_resolvedb cb) evs) eqn:Hall; [|discriminate].
  injection Hrun' as <-. rewrite (served_all cb evs Hall) in Hc.
  destruct (run_frame h cb evs w1 _ w2 Hrun) as (Hlog2 & _).
  rewrite Hlog in Hlog2.
  exists (set_coveragelog None w2).
  split; [apply (uninit_plugin_open w2 _ Hlog2)|].
  split; [reflexivity|]. split; [exact Hcb|].
  cbn [f_path] in Hc. unfold file_content in *. cbn. rewrite Hc, Hfile.
  reflexivity.
Qed.

Lemma session_output_witness :
  exists w3,
    uninit_plugin
      (snd (run_blocks hash_identity CB_before_block_exec_asid scenario_asid
              (snd (init_plugin 8192
                      (mkEnv (mkArgs None None None) OS_UNKNOWN
                             (fun _ => true) (fun _ _ => 0) true)
                      (initial_world 13 ∅)))))
    = (Returned tt, w3) /\
    coveragelog w3 = None.
Proof.
  destruct (session_output 8192
              (mkEnv (mkArgs None None None) OS_UNKNOWN (fun _ => true)
                     (fun _ _ => 0) true)
              hash_identity scenario_asid (initial_world 13 ∅)
              (snd (init_plugin 8192
                      (mkEnv (mkArgs None None None) OS_UNKNOWN
                             (fun _ => true) (fun _ _ => 0) true)
                      (initial_world 13 ∅)))
              (snd (run_blocks hash_identity CB_before_block_exec_asid
                      scenario_asid
                      (snd (init_plugin 8192
                              (mkEnv (mkArgs None None None) OS_UNKNOWN
                                     (fun _ => true) (fun _ _ => 0) true)
                              (initial_world 13 ∅))))))
    as (w3 & Hun & Hnull & _).
  - reflexivity.
  - reflexivity.
  - vm_compute; reflexivity.
  - vm_compute; reflexivity.
  - exists w3. split; [exact Hun | exact Hnull].
Defined.


